(** * CORD-19 dashboard ([streamlit_app.py]): loader and filter/aggregation layer

    A shallow embedding of the data handling of [streamlit_app.py]:
    [load_data] (lines 44-61), the sidebar filters (lines 80-111), the
    overview metrics (lines 122-188), the yearly series (line 197), the
    keyword search (lines 295-299) and the sample (line 319).

    A run of [main] on a loaded file does not get past the Trends tab:
    line 213 hands [pd.to_datetime] a frame whose columns are named
    [publish_year], [publish_month], [day], which it refuses with
    ValueError.  The code of the later lines (the remaining series, the
    search, the sample and the panels) is embedded function by function,
    each as the lines would compute it on the view they are given.

    Conventions of the embedding.
    - A DataFrame is the list of its rows, in index order; a column is the
      [map] of a field over that list.
    - A cell that pandas holds as NaN / NaT / None is [None].
    - Text is [string], read as a sequence of characters (one [ascii] per
      character, not the bytes of an encoding); texts with characters
      beyond these are outside the embedding.  Case folding is the ASCII
      one.
    - Floating-point results are kept exact: a finite float is the rational
      it denotes, and the two IEEE specials that numpy division produces on
      a zero divisor ([inf], [nan]) are separate constructors.
    - A Python exception is the [Raise] constructor of [result]. *)

From Stdlib Require Import List Bool Arith ZArith QArith Lia.
From Stdlib Require Import Ascii String.
From Stdlib Require Import Sorted Permutation.
Import ListNotations.

Set Implicit Arguments.

Close Scope Q_scope.
Open Scope nat_scope.

(** ** Python-level values *)

Inductive exn : Type :=
| IndexError
| ValueError
| AttributeError
| ZeroDivisionError.

Inductive result (A : Type) : Type :=
| Ok (a : A)
| Raise (e : exn).

Arguments Ok {A} a.
Arguments Raise {A} e.

Definition bind {A B : Type} (m : result A) (k : A -> result B) : result B :=
  match m with
  | Ok a => k a
  | Raise e => Raise e
  end.

Notation "x <- m ;; k" := (bind m (fun x => k))
  (at level 61, m at next level, right associativity).

(** A numpy float: finite (kept exact), infinite, or not-a-number. *)
Inductive npfloat : Type :=
| Fin (q : Q)
| Inf
| NaN.

(** What a [{}] slot of the insight boxes receives: a computed value or the
    literal ["N/A"]. *)
Inductive shown (A : Type) : Type :=
| Val (a : A)
| NA.

Arguments Val {A} a.
Arguments NA {A}.

(** A parsed [publish_time] (the calendar part of a pandas Timestamp). *)
Record date : Type := mkDate { d_year : Z; d_month : Z; d_day : Z }.

(** ** Rows *)

(** A record of [cord19_metadata.csv] as [pd.read_csv] delivers it: an empty
    text cell is NaN. *)
Record raw_row : Type := mkRaw {
  raw_title : option string;
  raw_authors : option string;
  raw_journal : option string;
  raw_source_x : option string;
  raw_publish_time : option string;
  raw_abstract : option string;
  raw_doi : option string;
  raw_has_full_text : bool
}.

(** A row of the frame [load_data] returns. *)
Record row : Type := mkRow {
  title : option string;
  authors : option string;
  journal : string;
  source_x : option string;
  publish_time : option date;
  publish_year : option Z;
  publish_month : option Z;
  abstract : string;
  doi : string;
  has_full_text : bool;
  author_count : option nat;
  abstract_length : nat
}.

Definition DataFrame : Type := list row.

(** ** pandas column helpers *)

(** [Series.fillna(v)] on one cell. *)
Definition fillna {A : Type} (v : A) (c : option A) : A :=
  match c with
  | Some x => x
  | None => v
  end.

(** [Series.dropna()]. *)
Fixpoint dropna {A : Type} (col : list (option A)) : list A :=
  match col with
  | [] => []
  | Some x :: t => x :: dropna t
  | None :: t => dropna t
  end.

(** Number of pieces of [s.split(',')]: one more than the number of commas. *)
Fixpoint split_len (s : string) : nat :=
  match s with
  | EmptyString => 1
  | String c t => if Ascii.eqb c "," then S (split_len t) else split_len t
  end.

(** [Series.isin(values)] on one cell, for a column that never matches on
    NaN because [values] holds none (the year options are [dropna]'d). *)
Definition isin_Z (values : list Z) (c : option Z) : bool :=
  match c with
  | Some y => existsb (Z.eqb y) values
  | None => false
  end.

Definition isin_string (values : list string) (c : string) : bool :=
  existsb (String.eqb c) values.

Definition option_string_eqb (a b : option string) : bool :=
  match a, b with
  | Some x, Some y => String.eqb x y
  | None, None => true
  | _, _ => false
  end.

(** [isin] on the [source_x] column; its options come from
    [df['source_x'].unique()], which keeps NaN, and [isin] matches NaN
    against NaN. *)
Definition isin_source (values : list (option string)) (c : option string) : bool :=
  existsb (option_string_eqb c) values.

(** ** load_data (lines 44-61) *)

(** What [load_data] does to the outside: the read of the file and, when
    that fails, the [st.error] box. *)
Inductive load_event : Type :=
| EvReadCsv (path : string)
| EvError (msg : string).

(** Whether [df['authors']] has the [.str] accessor.  [read_csv] gives a
    column in which no record has a value the dtype float64, which has
    none; with one text cell, or in a file without records, the dtype is
    object. *)
Definition has_raw_authors (r : raw_row) : bool :=
  match raw_authors r with
  | Some _ => true
  | None => false
  end.

Definition authors_is_text (raw : list raw_row) : bool :=
  match raw with
  | [] => true
  | _ :: _ => existsb has_raw_authors raw
  end.

Section Loader.

(** [pd.to_datetime(_, errors='coerce')] on one text cell: the parsed date,
    or NaT when the text is not a date. *)
Variable to_datetime : string -> option date.

Definition parse_publish_time (c : option string) : option date :=
  match c with
  | Some s => to_datetime s
  | None => None
  end.

Definition clean_row (r : raw_row) : row :=
  let pt := parse_publish_time (raw_publish_time r) in
  let abs := fillna "No abstract available"%string (raw_abstract r) in
  {| title := raw_title r;
     authors := raw_authors r;
     journal := fillna "Unknown Journal"%string (raw_journal r);
     source_x := raw_source_x r;
     publish_time := pt;
     publish_year := option_map d_year pt;
     publish_month := option_map d_month pt;
     abstract := abs;
     doi := fillna "No DOI available"%string (raw_doi r);
     has_full_text := raw_has_full_text r;
     author_count := option_map split_len (raw_authors r);
     abstract_length := String.length abs |}.

(** [fs] is the content of ['cord19_metadata.csv'], [None] when the file
    does not exist ([pd.read_csv] raises FileNotFoundError, the one
    exception the function catches).  The result is what the call returns
    ([Ok None] for Python's [None]) or the exception it lets through, and
    the events of the call.  Line 56 lets one through: on a file with
    records of which none has an authors cell, [.str] raises
    AttributeError. *)
Definition load_data (fs : option (list raw_row)) :
    result (option DataFrame) * list load_event :=
  match fs with
  | Some raw =>
      (if authors_is_text raw then Ok (Some (map clean_row raw))
       else Raise AttributeError,
       [EvReadCsv "cord19_metadata.csv"])
  | None =>
      (Ok None,
       [EvReadCsv "cord19_metadata.csv";
        EvError "Dataset file 'cord19_metadata.csv' not found. Please make sure the file exists."])
  end.

End Loader.

(** ** Sidebar options and filters (lines 80-111) *)

(** Python's [sorted] and the pandas sorts are stable; insertion into a
    list ordered by [le], and the sort built on it, stand for them. *)
Section Sorting.

Variable B : Type.
Variable le : B -> B -> bool.

Fixpoint insert_sorted (x : B) (l : list B) : list B :=
  match l with
  | [] => [x]
  | y :: t => if le x y then x :: l else y :: insert_sorted x t
  end.

Definition sort_by (l : list B) : list B := fold_right insert_sorted [] l.

End Sorting.

Definition sorted_Z (l : list Z) : list Z := sort_by Z.leb l.

(** [Series.unique()]: first occurrences, in order. *)
Fixpoint unique {A : Type} (eqb : A -> A -> bool) (l : list A) : list A :=
  match l with
  | [] => []
  | x :: t => x :: filter (fun y => negb (eqb y x)) (unique eqb t)
  end.

(** Line 81. *)
Definition available_years (df : DataFrame) : list Z :=
  sorted_Z (unique Z.eqb (dropna (map publish_year df))).

(** Line 97; NaN is one of the values [unique] reports. *)
Definition sources (df : DataFrame) : list (option string) :=
  unique option_string_eqb (map source_x df).

(** The state of the three multiselects and of the search box. *)
Record widgets : Type := mkWidgets {
  selected_years : list Z;
  selected_journals : list string;
  selected_sources : list (option string);
  search_term : string
}.

Definition is_empty {A : Type} (l : list A) : bool :=
  match l with
  | [] => true
  | _ => false
  end.

(** Lines 105-111: three optional boolean-mask selections, one after the
    other; an empty selection list is falsy and skips its step. *)
Definition filter_years (sel : list Z) (df : DataFrame) : DataFrame :=
  if is_empty sel then df
  else filter (fun r => isin_Z sel (publish_year r)) df.

Definition filter_journals (sel : list string) (df : DataFrame) : DataFrame :=
  if is_empty sel then df
  else filter (fun r => isin_string sel (journal r)) df.

Definition filter_sources (sel : list (option string)) (df : DataFrame) : DataFrame :=
  if is_empty sel then df
  else filter (fun r => isin_source sel (source_x r)) df.

Definition filtered_df (df : DataFrame) (w : widgets) : DataFrame :=
  filter_sources (selected_sources w)
    (filter_journals (selected_journals w)
       (filter_years (selected_years w) df)).

(** ** Counting values: value_counts, sort_index, mode *)

Section Counting.

Variable A : Type.
Variable eqb : A -> A -> bool.
Variable leb : A -> A -> bool.

(** One more occurrence of [k] in a table of (value, count) pairs kept in
    first-seen order. *)
Fixpoint bump (k : A) (acc : list (A * nat)) : list (A * nat) :=
  match acc with
  | [] => [(k, 1)]
  | (k', n) :: t => if eqb k k' then (k', S n) :: t else (k', n) :: bump k t
  end.

Definition tally (l : list A) : list (A * nat) :=
  fold_left (fun acc k => bump k acc) l [].

(** The count a table records for a value, 0 when the value is absent. *)
Fixpoint count_for (k : A) (acc : list (A * nat)) : nat :=
  match acc with
  | [] => 0
  | (k', n) :: t => if eqb k k' then n else count_for k t
  end.


(** [Series.value_counts()]: NaN dropped, largest count first.  How pandas
    orders values of equal count depends on its version; the embedding
    keeps them in first-seen order, and nothing stated below depends on the
    order among equal counts. *)
Definition value_counts (col : list (option A)) : list (A * nat) :=
  sort_by (fun p q => snd q <=? snd p) (tally (dropna col)).

(** [Series.sort_index()]: ascending labels. *)
Definition sort_index (s : list (A * nat)) : list (A * nat) :=
  sort_by (fun p q => leb (fst p) (fst q)) s.

Definition sort_keys (l : list A) : list A := sort_by leb l.

Definition max_count (vc : list (A * nat)) : nat :=
  fold_right (fun p m => Nat.max (snd p) m) 0 vc.

(** [Series.mode()] (dropna=True): the values of maximal count, sorted
    ascending; empty when the column has no non-null cell. *)
Definition mode (col : list (option A)) : list A :=
  let vc := tally (dropna col) in
  sort_keys (map fst (filter (fun p => snd p =? max_count vc) vc)).

End Counting.

(** [Series.iloc[0]]. *)
Definition iloc0 {A : Type} (s : list A) : result A :=
  match s with
  | x :: _ => Ok x
  | [] => Raise IndexError
  end.

(** Line 197. *)
Definition yearly_counts (view : DataFrame) : list (Z * nat) :=
  sort_index Z.leb (value_counts Z.eqb (map publish_year view)).

(** ** Overview metrics (lines 122-188) *)

Definition sum_nat (l : list nat) : nat := fold_right Nat.add 0 l.

(** numpy true division of two counts: a zero divisor gives [nan] for 0/0
    and [inf] otherwise (with a RuntimeWarning, no exception). *)
Definition np_divide (a b : nat) : npfloat :=
  match b with
  | O => match a with O => NaN | S _ => Inf end
  | S _ => Fin (Z.of_nat a # Pos.of_nat b)%Q
  end.

Definition np_times100 (x : npfloat) : npfloat :=
  match x with
  | Fin q => Fin (q * 100)%Q
  | Inf => Inf
  | NaN => NaN
  end.

(** [Series.mean()]: NaN cells skipped; [nan] when nothing is left. *)
Definition series_mean (col : list (option nat)) : npfloat :=
  let xs := dropna col in
  match xs with
  | [] => NaN
  | _ => Fin (Z.of_nat (sum_nat xs) # Pos.of_nat (List.length xs))%Q
  end.

Definition count_true (col : list bool) : nat :=
  List.length (filter (fun b => b) col).

Definition date_leb (a b : date) : bool :=
  if (d_year a <? d_year b)%Z then true
  else if (d_year b <? d_year a)%Z then false
  else if (d_month a <? d_month b)%Z then true
  else if (d_month b <? d_month a)%Z then false
  else (d_day a <=? d_day b)%Z.

(** [Series.min()] / [Series.max()] of the date column: NaT skipped, NaT
    when nothing is left. *)
Fixpoint series_min (col : list date) : option date :=
  match col with
  | [] => None
  | d :: t =>
      match series_min t with
      | None => Some d
      | Some m => Some (if date_leb d m then d else m)
      end
  end.

Fixpoint series_max (col : list date) : option date :=
  match col with
  | [] => None
  | d :: t =>
      match series_max t with
      | None => Some d
      | Some m => Some (if date_leb m d then d else m)
      end
  end.

(** [.strftime('%Y-%m-%d')]: NaT raises ValueError.  The date stands for
    its text. *)
Definition strftime (t : option date) : result date :=
  match t with
  | Some d => Ok d
  | None => Raise ValueError
  end.

Record metrics : Type := mkMetrics {
  totalCount : nat;
  uniqueJournalCount : nat;
  meanAuthorCount : npfloat;
  fullTextPercentage : npfloat;
  modeYear : shown Z;
  dateRangeMin : shown date;
  dateRangeMax : shown date;
  meanAbstractLength : npfloat;
  modeSource : shown string;
  modeJournal : shown string;
  abstractCompletenessPercentage : npfloat
}.

(** Line 143: [(has_full_text.sum() / len(filtered_df)) * 100], unguarded,
    on a view whose [has_full_text] column has dtype bool, as it has in
    every view of a table with records: the sum is a numpy integer and the
    division is numpy's.  [full_text_card] below adds the other dtype. *)
Definition full_text_pct (view : DataFrame) : npfloat :=
  np_times100 (np_divide (count_true (map has_full_text view)) (List.length view)).

(** Line 187: the same shape of quotient, guarded by [filtered_df.empty]. *)
Definition abstract_completeness (view : DataFrame) : npfloat :=
  if is_empty view then Fin 0%Q
  else
    np_times100
      (np_divide
         (count_true
            (map (fun r => negb (String.eqb (abstract r) "No abstract available")) view))
         (List.length view)).

(** Line 165. *)
Definition mode_year (view : DataFrame) : result (shown Z) :=
  if is_empty view then Ok NA
  else y <- iloc0 (mode Z.eqb Z.leb (map publish_year view)) ;; Ok (Val y).

(** Lines 166, 167. *)
Definition date_range_min (view : DataFrame) : result (shown date) :=
  if is_empty view then Ok NA
  else d <- strftime (series_min (dropna (map publish_time view))) ;; Ok (Val d).

Definition date_range_max (view : DataFrame) : result (shown date) :=
  if is_empty view then Ok NA
  else d <- strftime (series_max (dropna (map publish_time view))) ;; Ok (Val d).

(** Line 168. *)
Definition mean_abstract_length (view : DataFrame) : npfloat :=
  if is_empty view then Fin 0%Q
  else series_mean (map (fun r => Some (abstract_length r)) view).

(** Lines 172, 173. *)
Definition top_source (view : DataFrame) : result (shown string) :=
  if is_empty view then Ok NA
  else s <- iloc0 (mode String.eqb String.leb (map source_x view)) ;; Ok (Val s).

Definition top_journal (view : DataFrame) : result (shown string) :=
  if is_empty view then Ok NA
  else
    j <- iloc0 (mode String.eqb String.leb (map (fun r => Some (journal r)) view)) ;;
    Ok (Val j).

(** The overview tab, in evaluation order, on a view of a table with
    records (see [full_text_pct]); [overview] below covers every table. *)
Definition summarize (view : DataFrame) : result metrics :=
  let total := List.length view in
  let journals := List.length (unique String.eqb (map journal view)) in
  let avg_authors := series_mean (map author_count view) in
  let ft := full_text_pct view in
  my <- mode_year view ;;
  dmin <- date_range_min view ;;
  dmax <- date_range_max view ;;
  let mal := mean_abstract_length view in
  ts <- top_source view ;;
  tj <- top_journal view ;;
  Ok {| totalCount := total;
        uniqueJournalCount := journals;
        meanAuthorCount := avg_authors;
        fullTextPercentage := ft;
        modeYear := my;
        dateRangeMin := dmin;
        dateRangeMax := dmax;
        meanAbstractLength := mal;
        modeSource := ts;
        modeJournal := tj;
        abstractCompletenessPercentage := abstract_completeness view |}.

(** Line 143 on a view of the table [df].  In a file without records the
    [has_full_text] column has dtype object, its sum is the Python integer
    0, and dividing it by the length 0 raises ZeroDivisionError; the views
    of such a table are empty. *)
Definition full_text_card (df view : DataFrame) : result npfloat :=
  match df, view with
  | [], [] => Raise ZeroDivisionError
  | _, _ => Ok (full_text_pct view)
  end.

(** The overview tab on a view of the table [df]: line 143 is evaluated
    before the insight boxes. *)
Definition overview (df view : DataFrame) : result metrics :=
  _ <- full_text_card df view ;; summarize view.

(** ** Keyword search (lines 295-299) *)

(** ASCII case folding, as [re.IGNORECASE] does on ASCII text. *)
Definition lower (c : ascii) : ascii :=
  let n := nat_of_ascii c in
  if (65 <=? n) && (n <=? 90) then ascii_of_nat (n + 32) else c.

Fixpoint lower_string (s : string) : string :=
  match s with
  | EmptyString => EmptyString
  | String c t => String (lower c) (lower_string t)
  end.

(** [Series.str.contains(pat, case=False, na=False)] leaves [regex] at its
    default [True]: [pat] is compiled by [re] with IGNORECASE and searched
    for in each cell.  The embedding covers the patterns made of ordinary
    characters and the dot; a pattern with any other regex operator is
    outside it ([re_compile] answers [None]). *)
Inductive atom : Type :=
| Lit (c : ascii)
| Dot.

Definition is_operator (c : ascii) : bool :=
  existsb (Ascii.eqb c)
    ["\"; "^"; "$"; "*"; "+"; "?"; "{"; "}"; "["; "]"; "("; ")"; "|"]%char.

Fixpoint re_compile (pat : string) : option (list atom) :=
  match pat with
  | EmptyString => Some []
  | String c t =>
      if is_operator c then None
      else
        match re_compile t with
        | None => None
        | Some p => Some ((if Ascii.eqb c "." then Dot else Lit c) :: p)
        end
  end.

(** One pattern atom against one character: a literal up to case, the dot
    against anything but a newline. *)
Definition atom_matches (a : atom) (c : ascii) : bool :=
  match a with
  | Lit x => Ascii.eqb (lower x) (lower c)
  | Dot => negb (Ascii.eqb c "010")
  end.

Fixpoint match_here (p : list atom) (s : string) : bool :=
  match p, s with
  | [], _ => true
  | _ :: _, EmptyString => false
  | a :: p', String c s' => atom_matches a c && match_here p' s'
  end.

(** [re.search]: a match starting at some position of [s]. *)
Fixpoint re_search (p : list atom) (s : string) : bool :=
  match_here p s ||
  match s with
  | EmptyString => false
  | String _ s' => re_search p s'
  end.

(** One cell of [str.contains(..., na=False)]: NaN gives [False]. *)
Definition str_contains (p : list atom) (cell : option string) : bool :=
  match cell with
  | Some s => re_search p s
  | None => false
  end.

(** Lines 297-299.  [title] can hold NaN; [abstract] was filled by
    [load_data]. *)
Definition search_mask (p : list atom) (r : row) : bool :=
  str_contains p (title r) || str_contains p (Some (abstract r)).

Definition search_results (term : string) (view : DataFrame) : option DataFrame :=
  match re_compile term with
  | Some p => Some (filter (search_mask p) view)
  | None => None
  end.

(** ** Sample (line 319) *)

(** [n] draws without replacement; each draw takes the next number of the
    random source, reduced to a position of what is left. *)
Fixpoint draw {A : Type} (n : nat) (pool : list A) (rng : list nat) : list A :=
  match n with
  | O => []
  | S n' =>
      match pool with
      | [] => []
      | x :: _ =>
          let i := Nat.modulo (hd 0 rng) (List.length pool) in
          nth i pool x :: draw n' (firstn i pool ++ skipn (S i) pool) (tl rng)
      end
  end.

(** [DataFrame.sample(n)]: ValueError when [n] exceeds the population. *)
Definition DataFrame_sample (n : nat) (df : DataFrame) (rng : list nat) : result DataFrame :=
  if List.length df <? n then Raise ValueError else Ok (draw n df rng).

(** [filtered_df.sample(min(n, len(filtered_df)))]; line 319 has [n = 5]. *)
Definition sample_rows (n : nat) (view : DataFrame) (rng : list nat) : result DataFrame :=
  DataFrame_sample (Nat.min n (List.length view)) view rng.

Definition sample_papers (view : DataFrame) (rng : list nat) : result DataFrame :=
  sample_rows 5 view rng.

(** ** main (lines 64-340) *)

(** What a run shows and does, in order.  [EvTrendsRaises] is the exception
    that ends the Trends tab: [px.bar] at line 199 on some views, and
    otherwise the ValueError of line 213. *)
Inductive event : Type :=
| EvHeader
| EvLoad (e : load_event)
| EvSidebar (year_options : list Z)
| EvOverview (m : metrics)
| EvTrends (by_year : list (Z * nat))
| EvTrendsRaises
| EvException (e : exn).

(** Everything after the [df is None] test, up to the exception that ends
    the run. *)
Definition dashboard (df : DataFrame) (w : widgets) : list event :=
  let view := filtered_df df w in
  EvSidebar (available_years df) ::
  match overview df view with
  | Raise e => [EvException e]
  | Ok m => [EvOverview m; EvTrends (yearly_counts view); EvTrendsRaises]
  end.

(** [rng] is the random source of line 319, which no run gets to draw
    from. *)
Definition main (to_datetime : string -> option date)
    (fs : option (list raw_row)) (w : widgets) (rng : list nat) : list event :=
  let (res, evs) := load_data to_datetime fs in
  EvHeader :: map EvLoad evs ++
  match res with
  | Raise e => [EvException e]
  | Ok None => []
  | Ok (Some df) => dashboard df w
  end.

(** ** The filter contract, in the words of the specification *)

(** A row meets a selection when the selection is empty (no constraint on
    that dimension) or holds the row's value; the three are conjunctive. *)
Definition spec_satisfies (w : widgets) (r : row) : Prop :=
  (selected_years w = [] \/
   exists y, publish_year r = Some y /\ In y (selected_years w)) /\
  (selected_journals w = [] \/ In (journal r) (selected_journals w)) /\
  (selected_sources w = [] \/ In (source_x r) (selected_sources w)).

(** The same contract as one boolean mask. *)
Definition spec_keep (w : widgets) (r : row) : bool :=
  (is_empty (selected_years w) || isin_Z (selected_years w) (publish_year r)) &&
  (is_empty (selected_journals w) || isin_string (selected_journals w) (journal r)) &&
  (is_empty (selected_sources w) || isin_source (selected_sources w) (source_x r)).

(** Case-insensitive substring, as the specification words the search. *)
Definition spec_contains_ci (term s : string) : Prop :=
  exists pre post : string,
    lower_string s = (pre ++ lower_string term ++ post)%string.

(** The substring test behind [spec_contains_ci], as a decision. *)
Fixpoint starts_with (p s : string) : bool :=
  match p, s with
  | EmptyString, _ => true
  | String _ _, EmptyString => false
  | String a p', String b s' => Ascii.eqb a b && starts_with p' s'
  end.

Fixpoint occurs_in (p s : string) : bool :=
  starts_with p s ||
  match s with
  | EmptyString => false
  | String _ s' => occurs_in p s'
  end.


(** The rows of a view published in year [y], and how often a value occurs
    in a column. *)
Definition year_is (y : Z) (r : row) : bool :=
  match publish_year r with
  | Some z => Z.eqb z y
  | None => false
  end.

Definition has_year (r : row) : bool :=
  match publish_year r with
  | Some _ => true
  | None => false
  end.

Definition occurrences {A : Type} (eqb : A -> A -> bool) (x : A) (l : list A) : nat :=
  List.length (filter (eqb x) l).

(** ** A small data set

    Three records after the scenario of the specification, and a fourth
    whose [publish_time] is not a date. *)

Definition ex_to_datetime (s : string) : option date :=
  if String.eqb s "2020-03-01" then Some (mkDate 2020 3 1)
  else if String.eqb s "2021-07-15" then Some (mkDate 2021 7 15)
  else if String.eqb s "2020-11-30" then Some (mkDate 2020 11 30)
  else None.

Definition raw_A : raw_row :=
  mkRaw (Some "covid vaccine trial"%string) (Some "Lee, K; Roy, P"%string)
        (Some "J1"%string) (Some "S1"%string) (Some "2020-03-01"%string)
        None None true.

Definition raw_B : raw_row :=
  mkRaw (Some "unrelated topic"%string) (Some "Diaz, M"%string)
        (Some "J2"%string) (Some "S2"%string) (Some "2021-07-15"%string)
        (Some "vaccine efficacy study"%string) (Some "10.1/b"%string) false.

Definition raw_C : raw_row :=
  mkRaw (Some "other"%string) None
        (Some "J1"%string) (Some "S1"%string) (Some "2020-11-30"%string)
        (Some "other"%string) None true.

Definition raw_D : raw_row :=
  mkRaw (Some "abc"%string) (Some "Kim, S"%string)
        None (Some "S2"%string) (Some "sometime in spring"%string)
        (Some "xyz"%string) None false.

Definition ex_raw : list raw_row := [raw_A; raw_B; raw_C; raw_D].

Definition ex_df : DataFrame := map (clean_row ex_to_datetime) ex_raw.

Definition row_D : row := clean_row ex_to_datetime raw_D.

(** The sidebar as it first comes up: every available year and every source
    pre-selected, no journal, no search term. *)
Definition default_widgets (df : DataFrame) : widgets :=
  mkWidgets (available_years df) [] (sources df) "".

(** ** The rest of the dashboard *)

(** [.head(n)] of a Series or a frame. *)
Definition head {A : Type} (n : nat) (l : list A) : list A := firstn n l.

(** Line 89: the journal options are the labels of this Series. *)
Definition top_journals (df : DataFrame) : list (string * nat) :=
  head 20 (value_counts String.eqb (map (fun r => Some (journal r)) df)).

(** Line 126: the delta under "Total Papers", [None] when the filters
    removed nothing. *)
Definition total_delta (df view : DataFrame) : option Z :=
  if negb (List.length view =? List.length df)
  then Some (Z.of_nat (List.length view) - Z.of_nat (List.length df))%Z
  else None.

(** Line 212: [groupby(['publish_year', 'publish_month']).size()]; a row
    with a NaN key is in no group, the groups come in key order. *)
Definition year_month (r : row) : option (Z * Z) :=
  match publish_year r, publish_month r with
  | Some y, Some m => Some (y, m)
  | _, _ => None
  end.

Definition pair_eqb (a b : Z * Z) : bool :=
  Z.eqb (fst a) (fst b) && Z.eqb (snd a) (snd b).

Definition pair_leb (a b : Z * Z) : bool :=
  if (fst a <? fst b)%Z then true
  else if (fst b <? fst a)%Z then false
  else (snd a <=? snd b)%Z.

Definition monthly_data (view : DataFrame) : list ((Z * Z) * nat) :=
  sort_index pair_leb (tally pair_eqb (dropna (map year_month view))).

(** Line 229. *)
Definition source_counts (view : DataFrame) : list (string * nat) :=
  value_counts String.eqb (map source_x view).

(** Line 253. *)
Definition top_journals_filtered (view : DataFrame) : list (string * nat) :=
  head 10 (value_counts String.eqb (map (fun r => Some (journal r)) view)).

(** Line 280. *)
Definition full_text_counts (view : DataFrame) : list (bool * nat) :=
  value_counts Bool.eqb (map (fun r => Some (has_full_text r)) view).

(** [px.pie(values=..., names=...)]: the two sequences are paired by
    position; plotly refuses sequences of different lengths. *)
Definition px_pie (values : list nat) (names : list string) : option (list (string * nat)) :=
  if List.length values =? List.length names
  then Some (combine names values)
  else None.

(** Lines 281-286. *)
Definition fig_fulltext (view : DataFrame) : option (list (string * nat)) :=
  px_pie (map snd (full_text_counts view)) ["Available"; "Not Available"]%string.

(** [s[:n]]. *)
Definition slice_to (n : nat) (s : string) : string := substring 0 n s.

(** One expander of lines 305-315 and 321-331 (the icon before the title is
    left out). *)
Record panel : Type := mkPanel {
  p_label : string;
  p_authors : option string;
  p_journal : string;
  p_published : option date;
  p_source : option string;
  p_full_text : string;
  p_abstract : string;
  p_doi : option string
}.

(** [paper['title'][:100]] on a NaN title subscripts a float: TypeError,
    here [None].  A NaT date shows as 'Unknown' ([None] in [p_published]);
    the DOI line is written unless the cell holds the sentinel. *)
Definition render_paper (paper : row) : option panel :=
  match title paper with
  | None => None
  | Some t =>
      Some {| p_label := (slice_to 100 t ++ "...")%string;
              p_authors := authors paper;
              p_journal := journal paper;
              p_published := publish_time paper;
              p_source := source_x paper;
              p_full_text := if has_full_text paper then "Yes"%string else "No"%string;
              p_abstract := (slice_to 500 (abstract paper) ++ "...")%string;
              p_doi := if String.eqb (doi paper) "No DOI available" then None
                       else Some (doi paper) |}
  end.

(** The [for idx, paper in ....iterrows()] loops: the first failing row
    ends the loop. *)
Fixpoint render_papers (rows : DataFrame) : option (list panel) :=
  match rows with
  | [] => Some []
  | paper :: rest =>
      match render_paper paper with
      | None => None
      | Some p =>
          match render_papers rest with
          | None => None
          | Some ps => Some (p :: ps)
          end
      end
  end.

(** Line 305: the search lists the first ten results. *)
Definition listed_results (term : string) (view : DataFrame) : option DataFrame :=
  option_map (head 10) (search_results term view).

(** ** Vocabulary of the further properties *)

(** A row whose derived columns agree with its source columns, as
    [load_data] computes them. *)
Definition cleaned (r : row) : Prop :=
  publish_year r = option_map d_year (publish_time r) /\
  publish_month r = option_map d_month (publish_time r) /\
  author_count r = option_map split_len (authors r) /\
  abstract_length r = String.length (abstract r).

Definition has_source (r : row) : bool :=
  match source_x r with
  | Some _ => true
  | None => false
  end.

Definition has_authors (r : row) : bool :=
  match authors r with
  | Some _ => true
  | None => false
  end.

(** A record whose title and abstract run to 600 characters. *)
Definition long_text : string :=
  String.concat "" (List.repeat "0123456789"%string 60).

Definition raw_G : raw_row :=
  mkRaw (Some long_text) (Some "Ito, H"%string)
        (Some "J3"%string) (Some "S1"%string) (Some "2020-03-01"%string)
        (Some long_text) (Some "10.1/g"%string) true.

Definition row_G : row := clean_row ex_to_datetime raw_G.

(** A record whose date is not a date and that names no author. *)
Definition raw_F : raw_row :=
  mkRaw (Some "late entry"%string) None
        (Some "J1"%string) (Some "S1"%string) (Some "sometime in spring"%string)
        (Some "no date given"%string) None true.

(** A record without a title, and the two-paper view that holds it. *)
Definition raw_E : raw_row :=
  mkRaw None (Some "Ng, T"%string)
        (Some "J2"%string) None (Some "2021-07-15"%string)
        (Some "untitled note"%string) None false.

Definition ex_small_view : DataFrame :=
  map (clean_row ex_to_datetime) [raw_B; raw_E].

(** * Properties *)

(** ** Decidable equality of rows *)

Lemma date_eq_dec (a b : date) : {a = b} + {a <> b}.
Proof. decide equality; apply Z.eq_dec. Defined.

Lemma option_eq_dec (A : Type) (dec : forall x y : A, {x = y} + {x <> y})
    (a b : option A) : {a = b} + {a <> b}.
Proof. decide equality. Defined.

Lemma row_eq_dec (a b : row) : {a = b} + {a <> b}.
Proof.
  decide equality;
    try apply Nat.eq_dec; try apply Bool.bool_dec; try apply string_dec;
    try (apply option_eq_dec;
         first [ apply string_dec | apply Z.eq_dec | apply Nat.eq_dec
               | apply date_eq_dec ]).
Defined.

(** ** Filters *)

Lemma is_empty_true (A : Type) (l : list A) : is_empty l = true <-> l = [].
Proof. destruct l; simpl; split; congruence. Qed.

Lemma isin_Z_spec (sel : list Z) (c : option Z) :
  isin_Z sel c = true <-> exists y, c = Some y /\ In y sel.
Proof.
  destruct c as [y|]; simpl.
  - rewrite existsb_exists. split.
    + intros [x [Hin Heq]]. apply Z.eqb_eq in Heq. subst x. eauto.
    + intros [z [Hz Hin]]. injection Hz as <-. exists y. split; [assumption|].
      apply Z.eqb_refl.
  - split; [discriminate|]. intros [y [Hy _]]. discriminate.
Qed.

Lemma isin_string_spec (sel : list string) (c : string) :
  isin_string sel c = true <-> In c sel.
Proof.
  unfold isin_string. rewrite existsb_exists. split.
  - intros [x [Hin Heq]]. apply String.eqb_eq in Heq. now subst.
  - intros Hin. exists c. split; [assumption | apply String.eqb_refl].
Qed.

Lemma option_string_eqb_eq (a b : option string) :
  option_string_eqb a b = true <-> a = b.
Proof.
  destruct a as [x|], b as [y|]; simpl; try (split; congruence).
  rewrite String.eqb_eq. split; congruence.
Qed.

Lemma isin_source_spec (sel : list (option string)) (c : option string) :
  isin_source sel c = true <-> In c sel.
Proof.
  unfold isin_source. rewrite existsb_exists. split.
  - intros [x [Hin Heq]]. apply option_string_eqb_eq in Heq. now subst.
  - intros Hin. exists c. split; [assumption | now apply option_string_eqb_eq].
Qed.

Lemma spec_keep_reflects (w : widgets) (r : row) :
  spec_keep w r = true <-> spec_satisfies w r.
Proof.
  unfold spec_keep, spec_satisfies.
  rewrite !andb_true_iff, !orb_true_iff, !is_empty_true.
  rewrite isin_Z_spec, isin_string_spec, isin_source_spec. tauto.
Qed.

Lemma filter_filter (A : Type) (f g : A -> bool) (l : list A) :
  filter g (filter f l) = filter (fun x => f x && g x) l.
Proof.
  induction l as [|x l IH]; simpl; [reflexivity|].
  destruct (f x); simpl; [destruct (g x)|]; now rewrite IH.
Qed.

Lemma filter_all (A : Type) (f : A -> bool) (l : list A) :
  (forall x, f x = true) -> filter f l = l.
Proof.
  intros Hf. induction l as [|x l IH]; simpl; [reflexivity|].
  now rewrite Hf, IH.
Qed.

Lemma filter_steps_as_mask (A B : Type) (sel : list B) (f : A -> bool) (l : list A) :
  (if is_empty sel then l else filter f l) =
  filter (fun x => is_empty sel || f x) l.
Proof.
  destruct sel; simpl; [|reflexivity]. symmetry. now apply filter_all.
Qed.

(** The three masks applied in sequence are one conjunctive mask. *)
Lemma filtered_df_mask (df : DataFrame) (w : widgets) :
  filtered_df df w = filter (spec_keep w) df.
Proof.
  unfold filtered_df, filter_sources, filter_journals, filter_years, DataFrame.
  rewrite (filter_steps_as_mask (selected_years w)).
  rewrite (filter_steps_as_mask (selected_journals w)).
  rewrite (filter_steps_as_mask (selected_sources w)).
  rewrite !filter_filter. apply filter_ext. intros r.
  unfold spec_keep. now rewrite andb_assoc.
Qed.

Lemma count_occ_filter (A : Type) (dec : forall x y : A, {x = y} + {x <> y})
    (f : A -> bool) (l : list A) (x : A) :
  f x = true -> count_occ dec (filter f l) x = count_occ dec l x.
Proof.
  intros Hx. induction l as [|y l IH]; simpl; [reflexivity|].
  destruct (dec y x) as [->|Hne].
  - rewrite Hx. simpl. destruct (dec x x); congruence.
  - destruct (f y); simpl; [destruct (dec y x); congruence | assumption].
Qed.

(** C2. With the year, journal and source selections all empty, the
    filtered frame is the loaded frame itself, rows and order unchanged,
    whatever the search box holds (the search is not part of the filter
    step, and an empty term runs no search at all). *)
Theorem empty_selection_is_identity :
  forall (df : DataFrame) (term : string),
    filtered_df df (mkWidgets [] [] [] term) = df.
Proof. intros df term. reflexivity. Qed.

(** C3. The filtered frame is the source frame masked by the conjunction of
    the non-empty constraints: every row of it meets every constraint, it is
    exactly the rows of the source that do, in source order, and each such
    row occurs as many times as in the source. *)
Theorem filtered_df_sound_complete :
  forall (df : DataFrame) (w : widgets),
    Forall (spec_satisfies w) (filtered_df df w) /\
    (exists keep : row -> bool,
        (forall r, keep r = true <-> spec_satisfies w r) /\
        filtered_df df w = filter keep df) /\
    (forall r, spec_satisfies w r ->
               count_occ row_eq_dec (filtered_df df w) r = count_occ row_eq_dec df r).
Proof.
  intros df w. rewrite filtered_df_mask. repeat split.
  - apply Forall_forall. intros r Hr. apply filter_In in Hr.
    now apply spec_keep_reflects.
  - exists (spec_keep w). split; [apply spec_keep_reflects | reflexivity].
  - intros r Hr. apply count_occ_filter. now apply spec_keep_reflects.
Qed.

(** C10. As soon as the year selection is not empty, no row with a null
    [publish_year] is left in the filtered frame. *)
Theorem nonempty_years_drop_null_year :
  forall (df : DataFrame) (w : widgets),
    selected_years w <> [] ->
    Forall (fun r => publish_year r <> None) (filtered_df df w).
Proof.
  intros df w Hne. rewrite filtered_df_mask. apply Forall_forall.
  intros r Hr. apply filter_In in Hr. destruct Hr as [_ Hk].
  apply spec_keep_reflects in Hk. destruct Hk as [[Hy | [y [Hy _]]] _];
    congruence.
Qed.

Lemma nonempty_years_drop_null_year_default :
  selected_years (default_widgets ex_df) <> [] /\
  In row_D ex_df /\
  publish_year row_D = None /\
  Forall (fun r => publish_year r <> None)
         (filtered_df ex_df (default_widgets ex_df)).
Proof.
  split; [vm_compute; discriminate|].
  split; [vm_compute; tauto|].
  split; [reflexivity|].
  apply (nonempty_years_drop_null_year ex_df (default_widgets ex_df)).
  vm_compute; discriminate.
Defined.

(** ** Loader *)

(** C6. When the file does not exist, [load_data] hands back [None], which
    is not the empty frame that an existing file without records gives; the
    run reads the file once, shows the error box and stops there: no
    sidebar, no filtering, no metric, no series, no search. *)
Theorem missing_file_stops_before_queries :
  forall (to_datetime : string -> option date) (w : widgets) (rng : list nat),
    fst (load_data to_datetime None) = Ok None /\
    fst (load_data to_datetime (Some [])) = Ok (Some []) /\
    fst (load_data to_datetime None) <> fst (load_data to_datetime (Some [])) /\
    main to_datetime None w rng =
      [EvHeader;
       EvLoad (EvReadCsv "cord19_metadata.csv");
       EvLoad (EvError "Dataset file 'cord19_metadata.csv' not found. Please make sure the file exists.")].
Proof.
  intros to_datetime w rng. repeat split. simpl. discriminate.
Qed.

Lemma clean_row_unparsed (to_datetime : string -> option date) (r : raw_row) :
  parse_publish_time to_datetime (raw_publish_time r) = None ->
  publish_time (clean_row to_datetime r) = None /\
  publish_year (clean_row to_datetime r) = None /\
  publish_month (clean_row to_datetime r) = None.
Proof. intros H. unfold clean_row. simpl. rewrite H. auto. Qed.

(** On a file in which some record has an authors cell, a record whose
    [publish_time] is missing or is not a date does not fail the load and
    is not dropped: the load returns a frame with as many rows as the file
    has records, and at the record's position stands its cleaned row, with
    [publish_time], [publish_year] and [publish_month] all null. *)
Lemma unparsable_date_row_is_kept :
  forall (to_datetime : string -> option date) (raw : list raw_row)
         (i : nat) (r : raw_row),
    existsb has_raw_authors raw = true ->
    nth_error raw i = Some r ->
    (raw_publish_time r = None \/
     exists s, raw_publish_time r = Some s /\ to_datetime s = None) ->
    exists df : DataFrame,
      fst (load_data to_datetime (Some raw)) = Ok (Some df) /\
      List.length df = List.length raw /\
      nth_error df i = Some (clean_row to_datetime r) /\
      title (clean_row to_datetime r) = raw_title r /\
      publish_time (clean_row to_datetime r) = None /\
      publish_year (clean_row to_datetime r) = None /\
      publish_month (clean_row to_datetime r) = None.
Proof.
  intros to_datetime raw i r Hauth Hnth Hbad.
  exists (map (clean_row to_datetime) raw).
  split.
  { unfold load_data, authors_is_text. cbn [fst].
    destruct raw; [reflexivity | now rewrite Hauth]. }
  split; [apply length_map|].
  split; [now apply map_nth_error|].
  split; [reflexivity|].
  apply clean_row_unparsed.
  destruct Hbad as [H | [s [H Hs]]]; rewrite H; simpl; auto.
Qed.

Example unparsable_date_row_is_kept_ex :
  exists df : DataFrame,
    fst (load_data ex_to_datetime (Some ex_raw)) = Ok (Some df) /\
    List.length df = List.length ex_raw /\
    nth_error df 3 = Some (clean_row ex_to_datetime raw_D) /\
    title (clean_row ex_to_datetime raw_D) = raw_title raw_D /\
    publish_time (clean_row ex_to_datetime raw_D) = None /\
    publish_year (clean_row ex_to_datetime raw_D) = None /\
    publish_month (clean_row ex_to_datetime raw_D) = None.
Proof.
  apply (unparsable_date_row_is_kept ex_to_datetime ex_raw 3 (r := raw_D)).
  - reflexivity.
  - reflexivity.
  - right. exists "sometime in spring"%string. split; reflexivity.
Qed.

(** A file with records none of which has an authors cell is not loaded,
    whatever else its records hold. *)
Lemma load_without_any_author_raises
    (to_datetime : string -> option date) (raw : list raw_row) :
  raw <> [] ->
  existsb has_raw_authors raw = false ->
  fst (load_data to_datetime (Some raw)) = Raise AttributeError.
Proof.
  intros Hne Hnone. unfold load_data, authors_is_text. cbn [fst].
  destruct raw; [congruence | now rewrite Hnone].
Qed.

(** C7. A file whose one record has a [publish_time] that is not a date and
    no authors cell: the load does not return the record with a null date,
    it ends in the AttributeError of line 56, which [load_data] does not
    catch, and the run ends with it. *)
Theorem load_fails_on_bad_date_without_authors :
  forall (w : widgets) (rng : list nat),
    parse_publish_time ex_to_datetime (raw_publish_time raw_F) = None /\
    fst (load_data ex_to_datetime (Some [raw_F])) = Raise AttributeError /\
    main ex_to_datetime (Some [raw_F]) w rng =
      [EvHeader;
       EvLoad (EvReadCsv "cord19_metadata.csv");
       EvException AttributeError].
Proof. intros w rng. repeat split. Qed.

(** ** Sample *)

Lemma take_out_length (A : Type) (l : list A) (i : nat) :
  i < List.length l ->
  List.length (firstn i l ++ skipn (S i) l) = pred (List.length l).
Proof.
  intros Hi. rewrite length_app, length_firstn, length_skipn. lia.
Qed.

Lemma take_out_perm (A : Type) (d : A) (l : list A) :
  forall i, i < List.length l ->
            Permutation (nth i l d :: firstn i l ++ skipn (S i) l) l.
Proof.
  induction l as [|x l IH]; intros i Hi; simpl in Hi; [lia|].
  destruct i as [|i]; simpl.
  - reflexivity.
  - rewrite perm_swap. apply perm_skip. apply IH. lia.
Qed.

Lemma draw_length (A : Type) (n : nat) :
  forall (pool : list A) (rng : list nat),
    n <= List.length pool -> List.length (draw n pool rng) = n.
Proof.
  induction n as [|n IH]; intros pool rng Hn; [reflexivity|].
  destruct pool as [|x t]; [simpl in Hn; lia|].
  cbn [draw]. set (pool := x :: t) in *.
  assert (Hi : Nat.modulo (hd 0 rng) (List.length pool) < List.length pool)
    by (apply Nat.mod_upper_bound; subst pool; discriminate).
  cbn [List.length]. f_equal. apply IH.
  rewrite take_out_length by assumption. lia.
Qed.

Lemma draw_without_replacement (A : Type) (n : nat) :
  forall (pool : list A) (rng : list nat),
    exists rest, Permutation (draw n pool rng ++ rest) pool.
Proof.
  induction n as [|n IH]; intros pool rng.
  - exists pool. reflexivity.
  - destruct pool as [|x t]; [exists []; reflexivity|].
    cbn [draw]. set (pool := x :: t) in *.
    set (i := Nat.modulo (hd 0 rng) (List.length pool)).
    assert (Hi : i < List.length pool)
      by (apply Nat.mod_upper_bound; subst pool; discriminate).
    destruct (IH (firstn i pool ++ skipn (S i) pool) (tl rng)) as [rest Hrest].
    exists rest. cbn [app].
    apply Permutation_trans with
      (nth i pool x :: firstn i pool ++ skipn (S i) pool).
    + now apply perm_skip.
    + now apply take_out_perm.
Qed.

(** C9. Whatever the requested size, the view and the random draws, the
    sample step raises nothing and returns exactly [min n (len view)] rows,
    drawn from the view without replacement; so a request beyond the size
    of the view (the empty view included) returns every row of it. *)
Theorem sample_rows_min :
  forall (n : nat) (view : DataFrame) (rng : list nat),
    exists rows rest : DataFrame,
      sample_rows n view rng = Ok rows /\
      List.length rows = Nat.min n (List.length view) /\
      Permutation (rows ++ rest) view.
Proof.
  intros n view rng. unfold sample_rows, DataFrame_sample.
  assert (Hle : Nat.min n (List.length view) <= List.length view)
    by apply Nat.le_min_r.
  destruct (Nat.ltb_spec (List.length view) (Nat.min n (List.length view)))
    as [Hlt | _]; [lia|].
  destruct (draw_without_replacement (Nat.min n (List.length view)) view rng)
    as [rest Hrest].
  exists (draw (Nat.min n (List.length view)) view rng), rest.
  split; [reflexivity|]. split; [now apply draw_length | assumption].
Qed.

(** ** Overview metrics on the empty view *)

(** The empty view comes out of ordinary selections: year 2020 together with
    journal J2, which has no 2020 paper. *)
Lemma empty_view_reachable :
  filtered_df ex_df (mkWidgets [2020%Z] ["J2"%string] [] "") = [].
Proof. reflexivity. Qed.

(** C1. On the empty view [summarize] raises nothing and the guarded slots
    hold their sentinels, but the full-text percentage of line 143 divides
    by [len(filtered_df)] without the [filtered_df.empty] guard that the
    completeness percentage of line 187 has: it is [nan], not 0. *)
Theorem summarize_empty_full_text_nan :
  summarize [] =
    Ok {| totalCount := 0;
          uniqueJournalCount := 0;
          meanAuthorCount := NaN;
          fullTextPercentage := NaN;
          modeYear := NA;
          dateRangeMin := NA;
          dateRangeMax := NA;
          meanAbstractLength := Fin 0%Q;
          modeSource := NA;
          modeJournal := NA;
          abstractCompletenessPercentage := Fin 0%Q |}.
Proof. reflexivity. Qed.

(** ** Sorting *)

Section SortingFacts.

Variable B : Type.
Variable le : B -> B -> bool.

Lemma insert_sorted_perm (x : B) (l : list B) :
  Permutation (insert_sorted le x l) (x :: l).
Proof.
  induction l as [|y t IH]; simpl; [reflexivity|].
  destruct (le x y); [reflexivity|].
  rewrite perm_swap. now apply perm_skip.
Qed.

Lemma sort_by_perm (l : list B) : Permutation (sort_by le l) l.
Proof.
  induction l as [|x l IH]; simpl; [reflexivity|].
  rewrite insert_sorted_perm. now apply perm_skip.
Qed.

Hypothesis le_total : forall x y, le x y = true \/ le y x = true.
Hypothesis le_trans : forall x y z, le x y = true -> le y z = true -> le x z = true.

Lemma insert_sorted_sorted (x : B) (l : list B) :
  StronglySorted (fun a b => le a b = true) l ->
  StronglySorted (fun a b => le a b = true) (insert_sorted le x l).
Proof.
  induction l as [|y t IH]; intros Hs; simpl.
  - constructor; constructor.
  - inversion Hs as [|? ? Ht Hy]; subst.
    destruct (le x y) eqn:Hxy.
    + constructor; [assumption|]. constructor; [exact Hxy|].
      eapply Forall_impl; [|exact Hy]. intros z Hz. simpl in *. eauto.
    + constructor; [now apply IH|].
      apply (Permutation_Forall (Permutation_sym (insert_sorted_perm x t))).
      constructor; [|assumption].
      destruct (le_total x y) as [H|H]; [congruence | exact H].
Qed.

Lemma sort_by_sorted (l : list B) :
  StronglySorted (fun a b => le a b = true) (sort_by le l).
Proof.
  induction l as [|x l IH]; simpl; [constructor|].
  now apply insert_sorted_sorted.
Qed.

End SortingFacts.

Lemma strongly_sorted_weaken (B : Type) (R S : B -> B -> Prop) (l : list B) :
  (forall a b, R a b -> S a b) -> StronglySorted R l -> StronglySorted S l.
Proof.
  intros HRS. induction 1 as [|x l Hs IH Hx]; constructor; [assumption|].
  eapply Forall_impl; [|exact Hx]. intros b. apply HRS.
Qed.

Lemma strongly_sorted_map (B C : Type) (f : B -> C) (R : C -> C -> Prop) (l : list B) :
  StronglySorted (fun a b => R (f a) (f b)) l -> StronglySorted R (map f l).
Proof.
  induction 1 as [|x l Hs IH Hx]; simpl; constructor; [assumption|].
  apply Forall_map. exact Hx.
Qed.

Lemma sorted_nodup_strict (l : list Z) :
  StronglySorted Z.le l -> NoDup l -> StronglySorted Z.lt l.
Proof.
  induction 1 as [|x l Hs IH Hx]; intros Hnd; constructor.
  - apply IH. now inversion Hnd.
  - inversion Hnd as [|? ? Hnotin _]; subst.
    apply Forall_forall. intros y Hy.
    rewrite Forall_forall in Hx. specialize (Hx y Hy).
    assert (x <> y) by (intros ->; contradiction). lia.
Qed.

Lemma Zleb_total (x y : Z) : (x <=? y)%Z = true \/ (y <=? x)%Z = true.
Proof. rewrite !Z.leb_le. lia. Qed.

Lemma Zleb_trans (x y z : Z) :
  (x <=? y)%Z = true -> (y <=? z)%Z = true -> (x <=? z)%Z = true.
Proof. rewrite !Z.leb_le. lia. Qed.

(** ** Counting *)

Section TallyFacts.

Variable A : Type.
Variable eqb : A -> A -> bool.
Hypothesis eqb_eq : forall x y, eqb x y = true <-> x = y.

Lemma eqb_refl_true (x : A) : eqb x x = true.
Proof. now apply eqb_eq. Qed.

Lemma count_for_bump (x k : A) (acc : list (A * nat)) :
  count_for eqb x (bump eqb k acc) =
  if eqb x k then S (count_for eqb x acc) else count_for eqb x acc.
Proof.
  induction acc as [|[k' n] t IH]; simpl.
  - reflexivity.
  - destruct (eqb k k') eqn:Hk; simpl.
    + apply eqb_eq in Hk. subst k'. destruct (eqb x k); reflexivity.
    + rewrite IH. destruct (eqb x k') eqn:Hx; [|reflexivity].
      apply eqb_eq in Hx. subst k'.
      destruct (eqb x k) eqn:Hxk; [|reflexivity].
      apply eqb_eq in Hxk. subst k. rewrite eqb_refl_true in Hk. discriminate.
Qed.

Lemma keys_bump (k : A) (acc : list (A * nat)) (x : A) :
  In x (map fst (bump eqb k acc)) <-> x = k \/ In x (map fst acc).
Proof.
  induction acc as [|[k' n] t IH]; simpl.
  - intuition.
  - destruct (eqb k k') eqn:Hk; simpl.
    + apply eqb_eq in Hk. subst k'. intuition.
    + rewrite IH. intuition.
Qed.

Lemma nodup_bump (k : A) (acc : list (A * nat)) :
  NoDup (map fst acc) -> NoDup (map fst (bump eqb k acc)).
Proof.
  induction acc as [|[k' n] t IH]; simpl; intros Hnd.
  - constructor; [intros []|constructor].
  - inversion Hnd as [|? ? Hnotin Ht]; subst.
    destruct (eqb k k') eqn:Hk; simpl.
    + now constructor.
    + constructor; [|now apply IH].
      rewrite keys_bump. intros [-> | Hin]; [|contradiction].
      rewrite eqb_refl_true in Hk. discriminate.
Qed.

Lemma positive_bump (k : A) (acc : list (A * nat)) :
  Forall (fun p => 0 < snd p) acc ->
  Forall (fun p => 0 < snd p) (bump eqb k acc).
Proof.
  induction acc as [|[k' n] t IH]; simpl; intros Hp.
  - constructor; [simpl; lia | constructor].
  - inversion Hp as [|? ? Hn Ht]; subst.
    destruct (eqb k k'); constructor; simpl in *; auto; lia.
Qed.

Lemma sum_bump (k : A) (acc : list (A * nat)) :
  sum_nat (map snd (bump eqb k acc)) = S (sum_nat (map snd acc)).
Proof.
  induction acc as [|[k' n] t IH]; simpl; [reflexivity|].
  destruct (eqb k k'); simpl; [reflexivity|]. rewrite IH. lia.
Qed.

(** What holds of the table while the column is folded into it. *)
Lemma tally_from (l : list A) :
  forall acc,
    let out := fold_left (fun acc k => bump eqb k acc) l acc in
    (NoDup (map fst acc) -> NoDup (map fst out)) /\
    (Forall (fun p => 0 < snd p) acc -> Forall (fun p => 0 < snd p) out) /\
    sum_nat (map snd out) = List.length l + sum_nat (map snd acc) /\
    (forall x, count_for eqb x out = occurrences eqb x l + count_for eqb x acc) /\
    (forall x, In x (map fst out) <-> In x l \/ In x (map fst acc)).
Proof.
  induction l as [|k l IH]; intros acc; simpl.
  - repeat split; auto. intuition.
  - destruct (IH (bump eqb k acc)) as (Hnd & Hpos & Hsum & Hcnt & Hkeys).
    split; [intros H; apply Hnd; now apply nodup_bump|].
    split; [intros H; apply Hpos; now apply positive_bump|].
    split; [rewrite Hsum, sum_bump; lia|].
    split.
    + intros x. rewrite Hcnt, count_for_bump. unfold occurrences. simpl.
      destruct (eqb x k); simpl; lia.
    + intros x. rewrite Hkeys, keys_bump. intuition.
Qed.

Lemma count_for_in (acc : list (A * nat)) (k : A) (n : nat) :
  NoDup (map fst acc) -> In (k, n) acc -> count_for eqb k acc = n.
Proof.
  induction acc as [|[k' m] t IH]; simpl; intros Hnd Hin; [contradiction|].
  inversion Hnd as [|? ? Hnotin Ht]; subst.
  destruct Hin as [Heq | Hin].
  - injection Heq as -> ->. now rewrite eqb_refl_true.
  - destruct (eqb k k') eqn:Hk; [|now apply IH].
    apply eqb_eq in Hk. subst k'. exfalso. apply Hnotin.
    change k with (fst (k, n)). now apply in_map.
Qed.

Lemma tally_nodup (l : list A) : NoDup (map fst (tally eqb l)).
Proof. apply (tally_from l []). constructor. Qed.

Lemma tally_sum (l : list A) : sum_nat (map snd (tally eqb l)) = List.length l.
Proof.
  destruct (tally_from l []) as (_ & _ & H & _). simpl in H.
  unfold tally. rewrite H. lia.
Qed.

Lemma tally_count (l : list A) (k : A) (n : nat) :
  In (k, n) (tally eqb l) -> n = occurrences eqb k l /\ 0 < n.
Proof.
  intros Hin. destruct (tally_from l []) as (_ & Hpos & _ & Hcnt & _).
  split.
  - pose proof (@count_for_in (tally eqb l) k n (tally_nodup l) Hin) as Hc.
    unfold tally in Hc. rewrite Hcnt in Hc. simpl in Hc. lia.
  - specialize (Hpos (Forall_nil _)). rewrite Forall_forall in Hpos.
    apply (Hpos (k, n)). exact Hin.
Qed.

Lemma tally_keys (l : list A) (x : A) : In x (map fst (tally eqb l)) <-> In x l.
Proof.
  destruct (tally_from l []) as (_ & _ & _ & _ & H). unfold tally.
  rewrite H. simpl. intuition.
Qed.

End TallyFacts.

Lemma sum_nat_perm (l l' : list nat) : Permutation l l' -> sum_nat l = sum_nat l'.
Proof. induction 1; simpl; lia. Qed.

Lemma occurrences_year (y : Z) (view : DataFrame) :
  occurrences Z.eqb y (dropna (map publish_year view)) =
  List.length (filter (year_is y) view).
Proof.
  unfold occurrences, year_is.
  induction view as [|r view IH]; simpl; [reflexivity|].
  destruct (publish_year r) as [z|]; simpl; [|assumption].
  rewrite (Z.eqb_sym y z). destruct (Z.eqb z y); simpl; now rewrite IH.
Qed.

Lemma yearly_counts_perm (view : DataFrame) :
  Permutation (yearly_counts view)
              (tally Z.eqb (dropna (map publish_year view))).
Proof.
  unfold yearly_counts, sort_index, value_counts.
  now rewrite !sort_by_perm.
Qed.

(** C5. The yearly series is strictly ascending in the year (so sorted and
    without a repeated year), every entry counts the rows of the view
    published in its year and counts at least one, null years are in no
    entry, and the counts add up to the number of rows whose year is not
    null. *)
Theorem yearly_counts_sorted_and_complete :
  forall view : DataFrame,
    StronglySorted Z.lt (map fst (yearly_counts view)) /\
    NoDup (map fst (yearly_counts view)) /\
    Forall (fun p => snd p = List.length (filter (year_is (fst p)) view) /\
                     0 < snd p)
           (yearly_counts view) /\
    sum_nat (map snd (yearly_counts view)) =
      List.length (filter has_year view).
Proof.
  intros view.
  pose proof (yearly_counts_perm view) as Hperm.
  assert (Hnd : NoDup (map fst (yearly_counts view))).
  { apply (Permutation_NoDup (Permutation_sym (Permutation_map fst Hperm))).
    apply tally_nodup. exact Z.eqb_eq. }
  split; [|split; [exact Hnd|split]].
  - apply sorted_nodup_strict; [|exact Hnd].
    apply strongly_sorted_map with (R := Z.le).
    unfold yearly_counts, sort_index.
    eapply strongly_sorted_weaken;
      [| apply sort_by_sorted with (le := fun p q : Z * nat => (fst p <=? fst q)%Z)].
    + intros p q H. apply Z.leb_le. exact H.
    + intros p q. apply Zleb_total.
    + intros p q r. apply Zleb_trans.
  - apply (Permutation_Forall (Permutation_sym Hperm)).
    apply Forall_forall. intros [y n] Hin. simpl.
    apply (@tally_count Z Z.eqb Z.eqb_eq) in Hin. rewrite <- occurrences_year. exact Hin.
  - rewrite (sum_nat_perm (Permutation_map snd Hperm)).
    rewrite tally_sum by exact Z.eqb_eq.
    clear. induction view as [|r view IH]; simpl; [reflexivity|].
    unfold has_year. destruct (publish_year r); simpl; now rewrite IH.
Qed.

Example yearly_counts_scenario :
  yearly_counts (firstn 3 ex_df) = [(2020%Z, 2); (2021%Z, 1)].
Proof. reflexivity. Qed.

(** ** Mode *)

Lemma max_count_ge (A : Type) (vc : list (A * nat)) (p : A * nat) :
  In p vc -> snd p <= max_count vc.
Proof.
  induction vc as [|q vc IH]; simpl; [contradiction|].
  intros [-> | Hin]; [lia|]. specialize (IH Hin). lia.
Qed.

Lemma max_count_attained (A : Type) (vc : list (A * nat)) :
  vc <> [] -> exists p, In p vc /\ snd p = max_count vc.
Proof.
  induction vc as [|q vc IH]; [congruence|]. intros _. simpl.
  destruct vc as [|q' vc'].
  - exists q. split; [now left | simpl; lia].
  - destruct IH as [p [Hin Hp]]; [discriminate|].
    destruct (Nat.le_ge_cases (max_count (q' :: vc')) (snd q)) as [Hle | Hge].
    + exists q. split; [now left | lia].
    + exists p. split; [now right | lia].
Qed.

Lemma occurrences_pos_in (y : Z) (l : list Z) :
  0 < occurrences Z.eqb y l -> In y l.
Proof.
  unfold occurrences. induction l as [|x l IH]; simpl; [lia|].
  destruct (Z.eqb_spec y x) as [-> | Hne]; [now left|]. intros H. right. auto.
Qed.

Lemma sorted_head_least (l : list Z) (y : Z) (t : list Z) :
  sort_by Z.leb l = y :: t -> In y l /\ forall z, In z l -> (y <= z)%Z.
Proof.
  intros Heq.
  pose proof (sort_by_perm Z.leb l) as Hperm.
  pose proof (sort_by_sorted Z.leb Zleb_total Zleb_trans l) as Hs.
  rewrite Heq in Hperm, Hs. split.
  - apply (Permutation_in _ Hperm). now left.
  - intros z Hz. apply (Permutation_in _ (Permutation_sym Hperm)) in Hz.
    inversion Hs as [|? ? _ Hall]; subst.
    destruct Hz as [<- | Hz]; [lia|].
    rewrite Forall_forall in Hall. apply Z.leb_le. now apply Hall.
Qed.

(** On a view with at least one dated row, line 165 shows a year of the
    view whose row count no other year exceeds, and among the years with
    that count the smallest. *)
Lemma mode_year_smallest_most_frequent (view : DataFrame) :
  (exists r, In r view /\ has_year r = true) ->
  exists y : Z,
    mode_year view = Ok (Val y) /\
    0 < List.length (filter (year_is y) view) /\
    (forall z, List.length (filter (year_is z) view) <=
               List.length (filter (year_is y) view)) /\
    (forall z, List.length (filter (year_is z) view) =
               List.length (filter (year_is y) view) -> (y <= z)%Z).
Proof.
  intros [r0 [Hr0 Hy0]].
  unfold mode_year. destruct view as [|r view']; [contradiction|].
  cbn [is_empty]. set (view := r :: view') in *.
  unfold mode, sort_keys.
  set (l := dropna (map publish_year view)).
  set (vc := tally Z.eqb l).
  assert (Hocc : forall z, occurrences Z.eqb z l = List.length (filter (year_is z) view))
    by (intros z; apply occurrences_year).
  assert (Hentry : forall k n, In (k, n) vc -> n = occurrences Z.eqb k l /\ 0 < n)
    by (intros k n; apply (@tally_count Z Z.eqb Z.eqb_eq)).
  assert (Hkeys : forall z, In z l -> exists n, In (z, n) vc).
  { intros z Hz. apply (@tally_keys Z Z.eqb Z.eqb_eq) in Hz. fold vc in Hz.
    apply in_map_iff in Hz. destruct Hz as [[k n] [Hk Hin]]. simpl in Hk.
    subst k. now exists n. }
  assert (Hl : l <> []).
  { unfold has_year in Hy0. destruct (publish_year r0) as [y0|] eqn:E; [|discriminate].
    assert (In y0 l); [|intros Hnil; rewrite Hnil in *; contradiction].
    subst l. clear - Hr0 E. induction view as [|x v IH]; [contradiction|].
    simpl. destruct Hr0 as [-> | Hin].
    - rewrite E. now left.
    - destruct (publish_year x); [right|]; auto. }
  assert (Hvc : vc <> []).
  { destruct l as [|z l'] eqn:El; [congruence|].
    destruct (Hkeys z (or_introl eq_refl)) as [n Hn]. intros Hnil.
    rewrite Hnil in Hn. contradiction. }
  destruct (max_count_attained Hvc) as [[ym nm] [Hm Hmax]]. simpl in Hmax.
  set (cands := map fst (filter (fun p : Z * nat => snd p =? max_count vc) vc)).
  assert (Hcand : forall z, In z cands <-> In (z, max_count vc) vc).
  { intros z. unfold cands. rewrite in_map_iff. split.
    - intros [[k n] [Hk Hin]]. simpl in Hk. subst k.
      apply filter_In in Hin. destruct Hin as [Hin Hn]. simpl in Hn.
      apply Nat.eqb_eq in Hn. now subst n.
    - intros Hin. exists (z, max_count vc). split; [reflexivity|].
      apply filter_In. split; [assumption | simpl; apply Nat.eqb_refl]. }
  destruct (sort_by Z.leb cands) as [|y t] eqn:Hsort.
  - exfalso. assert (Hin : In ym cands) by (apply Hcand; now rewrite <- Hmax).
    apply (Permutation_in _ (Permutation_sym (sort_by_perm Z.leb cands))) in Hin.
    rewrite Hsort in Hin. contradiction.
  - apply sorted_head_least in Hsort. destruct Hsort as [Hy Hleast].
    apply Hcand in Hy. destruct (Hentry _ _ Hy) as [Hcnt Hpos].
    exists y. split; [reflexivity|].
    rewrite <- !Hocc. split; [lia|]. split.
    + intros z. rewrite <- Hocc.
      destruct (Nat.eq_dec (occurrences Z.eqb z l) 0) as [H0 | Hn0]; [lia|].
      destruct (Hkeys z) as [n Hn]; [apply occurrences_pos_in; lia|].
      destruct (Hentry _ _ Hn) as [Hzn _].
      pose proof (max_count_ge _ _ Hn) as Hle. simpl in Hle. lia.
    + intros z Hz. rewrite <- Hocc in Hz. apply Hleast. apply Hcand.
      destruct (Hkeys z) as [n Hn]; [apply occurrences_pos_in; lia|].
      destruct (Hentry _ _ Hn) as [Hzn _].
      replace (max_count vc) with n by lia. exact Hn.
Qed.

(** The view of the records without a journal, once the year selection has
    been cleared: one row, and its year is null. *)
Lemma undated_view_reachable :
  filtered_df ex_df (mkWidgets [] ["Unknown Journal"%string] [] "") = [row_D].
Proof. reflexivity. Qed.

(** C8. On a view that has rows but no dated one, [mode()] is empty and
    [.iloc[0]] raises IndexError: the [filtered_df.empty] guard of line 165
    does not cover it, and the whole overview fails with it. *)
Theorem mode_year_undated_view_raises :
  is_empty [row_D] = false /\
  mode_year [row_D] = Raise IndexError /\
  summarize [row_D] = Raise IndexError.
Proof. repeat split. Qed.

Example mode_year_tie_takes_smallest :
  mode_year (firstn 2 ex_df) = Ok (Val 2020%Z).
Proof. reflexivity. Qed.

(** ** Search *)

Lemma starts_with_spec (p s : string) :
  starts_with p s = true <-> exists post, s = (p ++ post)%string.
Proof.
  revert s. induction p as [|a p IH]; intros s; simpl.
  - split; [intros _; now exists s | reflexivity].
  - destruct s as [|b s]; [split; [discriminate | intros [post H]; discriminate]|].
    rewrite andb_true_iff, Ascii.eqb_eq, IH. split.
    + intros [-> [post ->]]. now exists post.
    + intros [post H]. injection H as -> ->. split; [reflexivity | now exists post].
Qed.

Lemma occurs_in_spec (p s : string) :
  occurs_in p s = true <-> exists pre post, s = (pre ++ p ++ post)%string.
Proof.
  induction s as [|c s IH]; simpl; rewrite orb_true_iff, starts_with_spec.
  - split.
    + intros [[post H] | H]; [|discriminate]. now exists EmptyString, post.
    + intros [pre [post H]]. left. destruct pre; [now exists post | discriminate].
  - rewrite IH. split.
    + intros [[post H] | [pre [post H]]].
      * now exists EmptyString, post.
      * exists (String c pre), post. simpl. now rewrite H.
    + intros [pre [post H]]. destruct pre as [|c' pre]; simpl in H.
      * left. now exists post.
      * right. injection H as _ H. now exists pre, post.
Qed.

Lemma spec_contains_ci_decide (term s : string) :
  spec_contains_ci term s <-> occurs_in (lower_string term) (lower_string s) = true.
Proof. unfold spec_contains_ci. now rewrite occurs_in_spec. Qed.





Example search_scenario :
  search_results "Vaccine" (firstn 3 ex_df) = Some (firstn 2 ex_df).
Proof. reflexivity. Qed.

(** C4. The search term is handed to [str.contains] as a regular
    expression: the term ["."] keeps a row whose title and abstract hold no
    dot at all, so "kept iff the term occurs as a substring" fails on it. *)
Theorem search_dot_keeps_row_without_dot :
  title row_D = Some "abc"%string /\
  abstract row_D = "xyz"%string /\
  ~ spec_contains_ci "." "abc" /\
  ~ spec_contains_ci "." "xyz" /\
  search_results "." [row_D] = Some [row_D].
Proof.
  repeat split; try (rewrite spec_contains_ci_decide; vm_compute; discriminate).
Qed.

(** ** The default year selection *)

Lemma unique_In (A : Type) (eqb : A -> A -> bool) (l : list A) (x : A) :
  (forall a b, eqb a b = true <-> a = b) ->
  (In x (unique eqb l) <-> In x l).
Proof.
  intros Heq. induction l as [|y l IH]; simpl; [reflexivity|].
  rewrite filter_In, IH, negb_true_iff. split.
  - intros [H | [H _]]; auto.
  - intros [H | H]; [now left|].
    destruct (eqb x y) eqn:E; [left; symmetry; now apply Heq | right; auto].
Qed.

Lemma available_years_In (df : DataFrame) (y : Z) :
  In y (available_years df) <-> exists r, In r df /\ publish_year r = Some y.
Proof.
  unfold available_years, sorted_Z.
  assert (Hs : In y (sort_by Z.leb (unique Z.eqb (dropna (map publish_year df)))) <->
               In y (unique Z.eqb (dropna (map publish_year df)))).
  { split; apply Permutation_in;
      [|apply Permutation_sym]; apply sort_by_perm. }
  rewrite Hs, (unique_In _ _ _ Z.eqb_eq). clear Hs.
  induction df as [|r df IH]; simpl.
  - split; [contradiction | intros [r [[] _]]].
  - destruct (publish_year r) as [z|] eqn:E; simpl; rewrite IH; split.
    + intros [-> | [r' [Hin Hy]]]; [exists r; auto | exists r'; auto].
    + intros [r' [[<- | Hin] Hy]]; [left; congruence | right; eauto].
    + intros [r' [Hin Hy]]. exists r'; auto.
    + intros [r' [[<- | Hin] Hy]]; [congruence | eauto].
Qed.

(** With every available year selected (the state the sidebar starts in),
    the year step keeps exactly the dated rows. *)
Lemma default_years_keep_exactly_dated (df : DataFrame) :
  available_years df <> [] ->
  filter_years (available_years df) df = filter has_year df.
Proof.
  intros Hne. unfold filter_years.
  destruct (available_years df) as [|y0 ys] eqn:E; [congruence|].
  cbn [is_empty]. rewrite <- E. apply filter_ext_in. intros r Hr.
  unfold has_year. destruct (publish_year r) as [y|] eqn:Hy; [|reflexivity].
  apply isin_Z_spec. exists y. split; [reflexivity|].
  apply available_years_In. eauto.
Qed.

(** * Further properties of the dashboard code *)

Lemma filter_all_in (A : Type) (f : A -> bool) (l : list A) :
  (forall x, In x l -> f x = true) -> filter f l = l.
Proof.
  induction l as [|x l IH]; intros Hf; simpl; [reflexivity|].
  rewrite (Hf x (or_introl eq_refl)), IH; [reflexivity|].
  intros y Hy. apply Hf. now right.
Qed.

Lemma filter_same_length (A : Type) (f : A -> bool) (l : list A) :
  List.length (filter f l) = List.length l -> filter f l = l.
Proof.
  induction l as [|x l IH]; simpl; [reflexivity|].
  pose proof (filter_length_le f l) as Hle.
  destruct (f x); simpl; intros H; [f_equal; apply IH; lia | lia].
Qed.

(** ** Sidebar options *)

Lemma unique_NoDup (A : Type) (eqb : A -> A -> bool) (l : list A) :
  (forall a b, eqb a b = true <-> a = b) -> NoDup (unique eqb l).
Proof.
  intros Heq. induction l as [|x l IH]; simpl; constructor.
  - rewrite filter_In, negb_true_iff. intros [_ H].
    assert (eqb x x = true) by now apply Heq. congruence.
  - now apply NoDup_filter.
Qed.

(** X1. The year options of line 81 are strictly ascending (sorted, none
    repeated) and are exactly the years that occur in the table. *)
Theorem available_years_sorted_exact :
  forall df : DataFrame,
    StronglySorted Z.lt (available_years df) /\
    (forall y, In y (available_years df) <->
               exists r, In r df /\ publish_year r = Some y).
Proof.
  intros df. split; [|intros y; apply available_years_In].
  unfold available_years, sorted_Z.
  set (l := unique Z.eqb (dropna (map publish_year df))).
  apply sorted_nodup_strict.
  - eapply strongly_sorted_weaken;
      [|exact (sort_by_sorted Z.leb Zleb_total Zleb_trans l)].
    intros a b H. apply Z.leb_le. exact H.
  - apply (Permutation_NoDup (Permutation_sym (sort_by_perm Z.leb l))).
    apply unique_NoDup. exact Z.eqb_eq.
Qed.

(** X2. The source options of line 97 hold every value of the column once, the
    missing value included. *)
Theorem sources_distinct_exact :
  forall df : DataFrame,
    NoDup (sources df) /\
    (forall s, In s (sources df) <-> exists r, In r df /\ source_x r = s).
Proof.
  intros df. unfold sources. split.
  - apply unique_NoDup. exact option_string_eqb_eq.
  - intros s. rewrite (unique_In _ _ _ option_string_eqb_eq), in_map_iff.
    split; intros [r [H1 H2]]; exists r; auto.
Qed.

Lemma sources_keep_all (df : DataFrame) :
  filter_sources (sources df) df = df.
Proof.
  unfold filter_sources. destruct (is_empty (sources df)); [reflexivity|].
  apply filter_all_in. intros r Hr. apply isin_source_spec.
  apply (unique_In _ _ _ option_string_eqb_eq). now apply in_map.
Qed.

(** X3. The view of the first run (every year and every source pre-selected,
    no journal): the dated rows, in table order; the whole table when no
    row is dated, because the year selection is then empty. *)
Theorem first_view_is_dated_rows :
  forall df : DataFrame,
    filtered_df df (default_widgets df) =
    if is_empty (available_years df) then df else filter has_year df.
Proof.
  intros df. unfold filtered_df, default_widgets. cbn [selected_years
    selected_journals selected_sources filter_journals is_empty].
  destruct (is_empty (available_years df)) eqn:E.
  - apply is_empty_true in E. rewrite E.
    cbn [filter_years is_empty]. apply sources_keep_all.
  - assert (Hne : available_years df <> [])
      by (intros H; rewrite H in E; discriminate).
    rewrite (default_years_keep_exactly_dated df Hne).
    unfold filter_sources. destruct (is_empty (sources df)); [reflexivity|].
    apply filter_all_in. intros r Hr. apply filter_In in Hr.
    apply isin_source_spec. apply (unique_In _ _ _ option_string_eqb_eq).
    apply in_map. tauto.
Qed.

(** ** Overview cards *)

Lemma filtered_df_length (df : DataFrame) (w : widgets) :
  List.length (filtered_df df w) <= List.length df.
Proof. rewrite filtered_df_mask. apply filter_length_le. Qed.

(** X4. The delta of the "Total Papers" card (line 126) is absent exactly when
    the filters removed no row, and is negative whenever it is shown. *)
Theorem total_delta_none_iff_unfiltered :
  forall (df : DataFrame) (w : widgets),
    (total_delta df (filtered_df df w) = None <-> filtered_df df w = df) /\
    (forall z, total_delta df (filtered_df df w) = Some z -> (z < 0)%Z).
Proof.
  intros df w. pose proof (filtered_df_length df w) as Hle.
  unfold total_delta.
  destruct (Nat.eqb_spec (List.length (filtered_df df w)) (List.length df))
    as [Heq | Hne]; simpl; split.
  - split; [intros _|reflexivity]. rewrite filtered_df_mask in *.
    now apply filter_same_length.
  - discriminate.
  - split; [discriminate|]. intros H. rewrite H in Hne. congruence.
  - intros z Hz. injection Hz as <-. lia.
Qed.

Lemma Zpos_of_nat (b : nat) : 0 < b -> Z.pos (Pos.of_nat b) = Z.of_nat b.
Proof.
  intros Hb. rewrite <- positive_nat_Z. f_equal. apply Nat2Pos.id. lia.
Qed.

Lemma count_true_le (col : list bool) : count_true col <= List.length col.
Proof. unfold count_true. apply filter_length_le. Qed.

(** A count out of a non-zero total, times 100, is a finite percentage. *)
Lemma percentage_range (a b : nat) :
  a <= b -> 0 < b ->
  exists q, np_times100 (np_divide a b) = Fin q /\ (0 <= q)%Q /\ (q <= 100)%Q.
Proof.
  intros Hab Hb. destruct b as [|b]; [lia|]. cbn [np_divide np_times100].
  eexists. split; [reflexivity|].
  pose proof (Zpos_of_nat Hb) as Hp.
  unfold Qle, Qmult. cbn [Qnum Qden]. rewrite Pos.mul_1_r. rewrite Hp.
  split; lia.
Qed.

(** The numpy quotient of line 143 is [nan] on the empty view and on every
    other view a finite percentage between 0 and 100. *)
Lemma full_text_pct_range :
  forall view : DataFrame,
    match view with
    | [] => full_text_pct view = NaN
    | _ :: _ =>
        exists q, full_text_pct view = Fin q /\ (0 <= q)%Q /\ (q <= 100)%Q
    end.
Proof.
  intros [|r view]; [reflexivity|]. unfold full_text_pct.
  apply percentage_range.
  - rewrite <- (length_map has_full_text (r :: view)). apply count_true_le.
  - simpl. lia.
Qed.

Lemma filtered_df_nil (w : widgets) : filtered_df [] w = [].
Proof. rewrite filtered_df_mask. reflexivity. Qed.

(** X5. The "Full Text Available" card (line 143), by table and view: on a
    file without records it raises ZeroDivisionError; on a table with
    records it is [nan] when the selections leave no row, and otherwise a
    finite percentage between 0 and 100. *)
Theorem full_text_card_by_table_and_view :
  forall (df : DataFrame) (w : widgets),
    match df with
    | [] => full_text_card df (filtered_df df w) = Raise ZeroDivisionError
    | _ :: _ =>
        match filtered_df df w with
        | [] => full_text_card df (filtered_df df w) = Ok NaN
        | _ :: _ =>
            exists q, full_text_card df (filtered_df df w) = Ok (Fin q) /\
                      (0 <= q)%Q /\ (q <= 100)%Q
        end
    end.
Proof.
  intros [|r df] w.
  - rewrite filtered_df_nil. reflexivity.
  - cbn [full_text_card].
    pose proof (full_text_pct_range (filtered_df (r :: df) w)) as H.
    destruct (filtered_df (r :: df) w) as [|x view].
    + now rewrite H.
    + destruct H as [q [Hq Hb]]. exists q. now rewrite Hq.
Qed.

(** X6. The "Data quality" figure (line 187) is finite on every view, the empty
    one included, and lies between 0 and 100. *)
Theorem abstract_completeness_range :
  forall view : DataFrame,
    exists q, abstract_completeness view = Fin q /\ (0 <= q)%Q /\ (q <= 100)%Q.
Proof.
  intros [|r view].
  - exists 0%Q. repeat split; unfold Qle; simpl; lia.
  - unfold abstract_completeness. cbn [is_empty]. apply percentage_range.
    + set (f := fun r0 : row => negb (String.eqb (abstract r0) "No abstract available")).
      rewrite <- (length_map f (r :: view)). apply count_true_le.
    + simpl. lia.
Qed.

Lemma split_len_pos (s : string) : 1 <= split_len s.
Proof.
  induction s as [|c s IH]; simpl; [lia|]. destruct (Ascii.eqb c ","); lia.
Qed.

Lemma clean_row_cleaned (to_datetime : string -> option date) (r : raw_row) :
  cleaned (clean_row to_datetime r).
Proof. unfold cleaned, clean_row. simpl. auto. Qed.

Lemma author_counts_pos (view : DataFrame) :
  Forall cleaned view ->
  Forall (fun n => 1 <= n) (dropna (map author_count view)).
Proof.
  induction 1 as [|r view Hr _ IH]; simpl; [constructor|].
  destruct Hr as (_ & _ & Hac & _). rewrite Hac.
  destruct (authors r); simpl; [constructor; [apply split_len_pos | exact IH] | exact IH].
Qed.

Lemma author_counts_empty (view : DataFrame) :
  Forall cleaned view ->
  dropna (map author_count view) = [] <-> existsb has_authors view = false.
Proof.
  induction 1 as [|r view Hr _ IH]; simpl; [tauto|].
  destruct Hr as (_ & _ & Hac & _). rewrite Hac. unfold has_authors at 1.
  destruct (authors r); simpl; [split; discriminate | exact IH].
Qed.

Lemma sum_at_least_length (xs : list nat) :
  Forall (fun n => 1 <= n) xs -> List.length xs <= sum_nat xs.
Proof. induction 1; simpl in *; lia. Qed.

(** X7. The "Avg Authors/Paper" card (line 136) over rows as [load_data]
    builds them: [nan] when no row of the view has an author cell, and
    otherwise at least 1, since every non-null author cell counts one
    name or more. *)
Theorem avg_authors_nan_or_at_least_one :
  forall view : DataFrame,
    Forall cleaned view ->
    if existsb has_authors view
    then exists q, series_mean (map author_count view) = Fin q /\ (1 <= q)%Q
    else series_mean (map author_count view) = NaN.
Proof.
  intros view Hc.
  pose proof (author_counts_pos Hc) as Hpos.
  pose proof (author_counts_empty Hc) as Hemp.
  unfold series_mean.
  destruct (dropna (map author_count view)) as [|x xs] eqn:E.
  - destruct Hemp as [H _]. now rewrite H.
  - destruct (existsb has_authors view) eqn:Hex;
      [|destruct Hemp as [_ H]; specialize (H eq_refl); discriminate].
    eexists. split; [reflexivity|].
    pose proof (sum_at_least_length Hpos) as Hsum.
    assert (Hlen : 0 < List.length (x :: xs)) by (simpl; lia).
    unfold Qle. cbn [Qnum Qden]. rewrite (Zpos_of_nat Hlen). lia.
Qed.

Lemma ex_df_cleaned : Forall cleaned ex_df.
Proof.
  unfold ex_df. apply Forall_forall. intros r Hr. apply in_map_iff in Hr.
  destruct Hr as [raw [<- _]]. apply clean_row_cleaned.
Defined.

Lemma avg_authors_nan_or_at_least_one_ex :
  if existsb has_authors ex_df
  then exists q, series_mean (map author_count ex_df) = Fin q /\ (1 <= q)%Q
  else series_mean (map author_count ex_df) = NaN.
Proof. apply (avg_authors_nan_or_at_least_one ex_df_cleaned). Defined.

(** ** Most frequent values *)

Section ModeFacts.

Variable A : Type.
Variable eqb : A -> A -> bool.
Variable leb : A -> A -> bool.
Hypothesis eqb_eq : forall x y, eqb x y = true <-> x = y.

Lemma occurrences_pos_iff (y : A) (l : list A) :
  0 < occurrences eqb y l <-> In y l.
Proof.
  clear leb. unfold occurrences. induction l as [|x l IH]; simpl; [split; [lia | tauto]|].
  destruct (eqb y x) eqn:E; simpl.
  - apply eqb_eq in E. subst x. split; [now left | lia].
  - rewrite IH. split; [now right|]. intros [-> | H]; [|assumption].
    assert (eqb y y = true) by now apply eqb_eq. congruence.
Qed.

Lemma tally_entry (l : list A) (y : A) :
  In y l -> In (y, occurrences eqb y l) (tally eqb l).
Proof.
  intros Hy. apply (@tally_keys A eqb eqb_eq) in Hy. apply in_map_iff in Hy.
  destruct Hy as [[k n] [Hk Hin]]. simpl in Hk. subst k.
  destruct (@tally_count A eqb eqb_eq _ _ _ Hin) as [-> _]. exact Hin.
Qed.

Lemma tally_max_is_count (l : list A) (y : A) :
  In (y, max_count (tally eqb l)) (tally eqb l) <->
  In y l /\ forall z, occurrences eqb z l <= occurrences eqb y l.
Proof.
  split.
  - intros Hin. destruct (@tally_count A eqb eqb_eq _ _ _ Hin) as [Hmax Hpos].
    split; [apply occurrences_pos_iff; lia|]. intros z.
    destruct (Nat.eq_dec (occurrences eqb z l) 0) as [H0 | Hn0]; [lia|].
    assert (Hz : In z l) by (apply occurrences_pos_iff; lia).
    pose proof (max_count_ge _ _ (@tally_entry l z Hz)) as Hle. simpl in Hle. lia.
  - intros [Hy Hmost]. pose proof (@tally_entry l y Hy) as Hin.
    assert (Hne : tally eqb l <> [])
      by (intros H; rewrite H in Hin; contradiction).
    destruct (@max_count_attained _ _ Hne) as [[ym nm] [Hm Hmax]]. simpl in Hmax.
    destruct (@tally_count A eqb eqb_eq _ _ _ Hm) as [Hnm _].
    pose proof (max_count_ge _ _ Hin) as Hle. simpl in Hle.
    specialize (Hmost ym).
    replace (max_count (tally eqb l)) with (occurrences eqb y l) by lia.
    exact Hin.
Qed.

(** Membership in [mode()]: the non-null values no other value outnumbers. *)
Lemma mode_In (col : list (option A)) (y : A) :
  In y (mode eqb leb col) <->
  In y (dropna col) /\
  forall z, occurrences eqb z (dropna col) <= occurrences eqb y (dropna col).
Proof.
  unfold mode, sort_keys. set (l := dropna col).
  rewrite <- tally_max_is_count.
  set (vc := tally eqb l).
  set (cands := map fst (filter (fun p : A * nat => snd p =? max_count vc) vc)).
  assert (Hs : In y (sort_by leb cands) <-> In y cands).
  { split; apply Permutation_in; [|apply Permutation_sym]; apply sort_by_perm. }
  rewrite Hs. unfold cands. rewrite in_map_iff. split.
  - intros [[k n] [Hk Hin]]. simpl in Hk. subst k.
    apply filter_In in Hin. destruct Hin as [Hin Hn]. simpl in Hn.
    apply Nat.eqb_eq in Hn. now subst n.
  - intros Hin. exists (y, max_count vc). split; [reflexivity|].
    apply filter_In. split; [assumption | simpl; apply Nat.eqb_refl].
Qed.

Lemma mode_nonempty (col : list (option A)) :
  dropna col <> [] -> mode eqb leb col <> [].
Proof.
  intros Hne Hnil.
  destruct (dropna col) as [|x l] eqn:E; [congruence|].
  assert (Hin : In (x, occurrences eqb x (x :: l)) (tally eqb (x :: l)))
    by (apply tally_entry; now left).
  assert (Hvc : tally eqb (x :: l) <> [])
    by (intros H; rewrite H in Hin; contradiction).
  destruct (@max_count_attained _ _ Hvc) as [[ym nm] [Hm Hmax]]. simpl in Hmax.
  subst nm. apply tally_max_is_count in Hm. rewrite <- E in Hm.
  apply mode_In in Hm. rewrite Hnil in Hm. contradiction.
Qed.

Lemma iloc0_mode (col : list (option A)) :
  match dropna col with
  | [] => iloc0 (mode eqb leb col) = Raise IndexError
  | _ :: _ => exists y, iloc0 (mode eqb leb col) = Ok y /\ In y (mode eqb leb col)
  end.
Proof.
  destruct (dropna col) as [|x l] eqn:E.
  - unfold mode. rewrite E. reflexivity.
  - assert (Hne : mode eqb leb col <> [])
      by (apply mode_nonempty; rewrite E; discriminate).
    destruct (mode eqb leb col) as [|y t]; [congruence|].
    exists y. split; [reflexivity | now left].
Qed.

End ModeFacts.

Lemma dropna_map_Some (A B : Type) (f : A -> B) (l : list A) :
  dropna (map (fun x => Some (f x)) l) = map f l.
Proof. induction l as [|x l IH]; simpl; [reflexivity | now rewrite IH]. Qed.

Lemma dropna_empty_iff (A : Type) (f : row -> option A) (g : row -> bool)
    (view : DataFrame) :
  (forall r, g r = true <-> f r <> None) ->
  dropna (map f view) = [] <-> existsb g view = false.
Proof.
  intros Hg. induction view as [|r view IH]; simpl; [tauto|].
  destruct (f r) as [a|] eqn:E.
  - assert (g r = true) as -> by (apply Hg; congruence).
    simpl. split; discriminate.
  - assert (g r = false) as ->.
    { destruct (g r) eqn:G; [|reflexivity]. apply Hg in G. congruence. }
    simpl. exact IH.
Qed.

Lemma has_year_iff (r : row) : has_year r = true <-> publish_year r <> None.
Proof. unfold has_year. destruct (publish_year r); split; congruence. Qed.

Lemma has_source_iff (r : row) : has_source r = true <-> source_x r <> None.
Proof. unfold has_source. destruct (source_x r); split; congruence. Qed.

(** X9. The "Most active journal" slot (line 173) never fails, because the
    loader left no journal cell null: on a view with rows it names a journal
    of the view that no other journal outnumbers. *)
Theorem top_journal_most_frequent :
  forall view : DataFrame,
    match view with
    | [] => top_journal view = Ok NA
    | _ :: _ =>
        exists j, top_journal view = Ok (Val j) /\
                  In j (map journal view) /\
                  forall j', occurrences String.eqb j' (map journal view) <=
                             occurrences String.eqb j (map journal view)
    end.
Proof.
  intros [|r view]; [reflexivity|]. unfold top_journal. cbn [is_empty].
  set (v := r :: view).
  pose proof (@iloc0_mode string String.eqb String.leb String.eqb_eq
                (map (fun x => Some (journal x)) v)) as H.
  pose proof (@mode_In string String.eqb String.leb String.eqb_eq
                (map (fun x => Some (journal x)) v)) as HIn.
  rewrite dropna_map_Some in H, HIn.
  destruct (map journal v) as [|j0 js] eqn:E; [discriminate|].
  destruct H as [j [Hj Hmem]]. exists j. rewrite Hj.
  split; [reflexivity|]. apply HIn in Hmem. exact Hmem.
Qed.

(** X10. The "Most common source" slot (line 172): on a view with rows it names
    a source that no other source outnumbers, null cells not counted; when
    no row of the view has a source it raises IndexError. *)
Theorem top_source_most_frequent_or_raises :
  forall view : DataFrame,
    match view with
    | [] => top_source view = Ok NA
    | _ :: _ =>
        if existsb has_source view
        then exists s, top_source view = Ok (Val s) /\
                       In (Some s) (map source_x view) /\
                       forall s', occurrences String.eqb s' (dropna (map source_x view)) <=
                                  occurrences String.eqb s (dropna (map source_x view))
        else top_source view = Raise IndexError
    end.
Proof.
  intros [|r view]; [reflexivity|]. unfold top_source. cbn [is_empty].
  set (v := r :: view).
  pose proof (@iloc0_mode string String.eqb String.leb String.eqb_eq (map source_x v)) as H.
  pose proof (@mode_In string String.eqb String.leb String.eqb_eq (map source_x v)) as HIn.
  pose proof (dropna_empty_iff source_x has_source v has_source_iff) as He.
  destruct (dropna (map source_x v)) as [|s0 ss] eqn:E.
  - destruct He as [He _]. rewrite (He eq_refl), H. reflexivity.
  - destruct (existsb has_source v);
      [|destruct He as [_ He]; specialize (He eq_refl); discriminate].
    destruct H as [s [Hs Hmem]]. exists s. rewrite Hs.
    split; [reflexivity|]. apply HIn in Hmem. destruct Hmem as [Hin Hmost].
    split; [|exact Hmost]. rewrite <- E in Hin. clear - Hin.
    induction v as [|x v IH]; simpl in *; [contradiction|].
    destruct (source_x x); simpl in *; [destruct Hin as [-> | Hin]|]; auto.
Qed.

(** ** Date range *)

Lemma date_leb_iff (a b : date) :
  date_leb a b = true <->
  (d_year a < d_year b \/
   (d_year a = d_year b /\
    (d_month a < d_month b \/ (d_month a = d_month b /\ d_day a <= d_day b))))%Z.
Proof.
  unfold date_leb.
  destruct (Z.ltb_spec (d_year a) (d_year b)); [split; [lia | reflexivity]|].
  destruct (Z.ltb_spec (d_year b) (d_year a)); [split; [discriminate | lia]|].
  destruct (Z.ltb_spec (d_month a) (d_month b)); [split; [lia | reflexivity]|].
  destruct (Z.ltb_spec (d_month b) (d_month a)); [split; [discriminate | lia]|].
  rewrite Z.leb_le. lia.
Qed.

Lemma date_leb_refl (a : date) : date_leb a a = true.
Proof. apply date_leb_iff. lia. Qed.

Lemma date_leb_total (a b : date) : date_leb a b = true \/ date_leb b a = true.
Proof. rewrite !date_leb_iff. lia. Qed.

Lemma date_leb_trans (a b c : date) :
  date_leb a b = true -> date_leb b c = true -> date_leb a c = true.
Proof. rewrite !date_leb_iff. lia. Qed.

Lemma series_min_least (ds : list date) :
  match ds with
  | [] => series_min ds = None
  | _ :: _ => exists lo, series_min ds = Some lo /\ In lo ds /\
                          Forall (fun d => date_leb lo d = true) ds
  end.
Proof.
  induction ds as [|d ds IH]; [reflexivity|]. cbn [series_min].
  destruct ds as [|d' ds'].
  - simpl. exists d. repeat split; [now left|].
    constructor; [apply date_leb_refl | constructor].
  - destruct IH as [m [-> [Hin Hall]]].
    destruct (date_leb d m) eqn:E.
    + exists d. split; [reflexivity|]. split; [now left|].
      constructor; [apply date_leb_refl|].
      eapply Forall_impl; [|exact Hall]. intros x Hx. simpl in Hx.
      exact (@date_leb_trans d m x E Hx).
    + exists m. split; [reflexivity|]. split; [now right|].
      constructor; [|exact Hall].
      destruct (date_leb_total d m); congruence.
Qed.

Lemma series_max_greatest (ds : list date) :
  match ds with
  | [] => series_max ds = None
  | _ :: _ => exists hi, series_max ds = Some hi /\ In hi ds /\
                          Forall (fun d => date_leb d hi = true) ds
  end.
Proof.
  induction ds as [|d ds IH]; [reflexivity|]. cbn [series_max].
  destruct ds as [|d' ds'].
  - simpl. exists d. repeat split; [now left|].
    constructor; [apply date_leb_refl | constructor].
  - destruct IH as [m [-> [Hin Hall]]].
    destruct (date_leb m d) eqn:E.
    + exists d. split; [reflexivity|]. split; [now left|].
      constructor; [apply date_leb_refl|].
      eapply Forall_impl; [|exact Hall]. intros x Hx. simpl in Hx.
      exact (@date_leb_trans x m d Hx E).
    + exists m. split; [reflexivity|]. split; [now right|].
      constructor; [|exact Hall].
      destruct (date_leb_total m d); congruence.
Qed.

(** X11. The "Date range" slots (lines 166-167): "N/A" on the empty view; on a
    view with rows but no parsed date both raise ValueError (strftime of
    NaT); otherwise they are dates of the view that bracket every parsed
    date of it. *)
Theorem date_range_brackets_view :
  forall view : DataFrame,
    match view with
    | [] => date_range_min view = Ok NA /\ date_range_max view = Ok NA
    | _ :: _ =>
        match dropna (map publish_time view) with
        | [] => date_range_min view = Raise ValueError /\
                date_range_max view = Raise ValueError
        | _ :: _ =>
            exists lo hi,
              date_range_min view = Ok (Val lo) /\
              date_range_max view = Ok (Val hi) /\
              In (Some lo) (map publish_time view) /\
              In (Some hi) (map publish_time view) /\
              Forall (fun d => date_leb lo d = true /\ date_leb d hi = true)
                     (dropna (map publish_time view))
        end
    end.
Proof.
  intros [|r view]; [split; reflexivity|].
  unfold date_range_min, date_range_max. cbn [is_empty].
  set (v := r :: view).
  assert (Hback : forall d, In d (dropna (map publish_time v)) ->
                            In (Some d) (map publish_time v)).
  { clear. intros d. induction v as [|x v IH]; simpl; [tauto|].
    destruct (publish_time x); simpl; [intros [-> | H]|]; auto. }
  pose proof (series_min_least (dropna (map publish_time v))) as Hmin.
  pose proof (series_max_greatest (dropna (map publish_time v))) as Hmax.
  destruct (dropna (map publish_time v)) as [|d ds] eqn:E.
  - rewrite Hmin, Hmax. split; reflexivity.
  - destruct Hmin as [lo [Hlo [Hinlo Hall_lo]]].
    destruct Hmax as [hi [Hhi [Hinhi Hall_hi]]].
    exists lo, hi. rewrite Hlo, Hhi.
    repeat split; auto.
    rewrite Forall_forall in *. intros x Hx. split; auto.
Qed.

(** ** When the overview fails *)

Lemma dated_rows_have_dates (view : DataFrame) :
  Forall cleaned view -> existsb has_year view = true ->
  dropna (map publish_time view) <> [].
Proof.
  induction 1 as [|r view Hr _ IH]; simpl; [discriminate|].
  destruct Hr as (Hy & _). unfold has_year at 1. rewrite Hy.
  destruct (publish_time r); simpl; [discriminate | exact IH].
Qed.

(** Over rows as [load_data] builds them, the insight boxes fail in exactly
    one situation: the view has rows, but none of them is dated or none of
    them has a source; then they raise IndexError. *)
Lemma summarize_fails_iff_undated_or_unsourced :
  forall view : DataFrame,
    Forall cleaned view ->
    if is_empty view || (existsb has_year view && existsb has_source view)
    then exists m, summarize view = Ok m
    else summarize view = Raise IndexError.
Proof.
  intros [|r view] Hc; [eexists; reflexivity|]. cbn [is_empty orb].
  set (v := r :: view) in *. unfold summarize.
  (* the year slot *)
  pose proof (@iloc0_mode Z Z.eqb Z.leb Z.eqb_eq (map publish_year v)) as Hy.
  pose proof (dropna_empty_iff publish_year has_year v has_year_iff) as Hye.
  unfold mode_year. cbn [is_empty].
  destruct (dropna (map publish_year v)) as [|y0 ys].
  { destruct Hye as [Hye _]. rewrite (Hye eq_refl), Hy. reflexivity. }
  destruct (existsb has_year v) eqn:Hhy;
    [|destruct Hye as [_ Hye]; specialize (Hye eq_refl); discriminate].
  destruct Hy as [y [-> _]]. cbn [bind andb].
  (* the two date slots *)
  pose proof (dated_rows_have_dates Hc Hhy) as Hd.
  pose proof (series_min_least (dropna (map publish_time v))) as Hmin.
  pose proof (series_max_greatest (dropna (map publish_time v))) as Hmax.
  unfold date_range_min, date_range_max. cbn [is_empty].
  destruct (dropna (map publish_time v)) as [|d ds]; [congruence|].
  destruct Hmin as [lo [-> _]]. destruct Hmax as [hi [-> _]].
  cbn [strftime bind].
  (* the source slot *)
  pose proof (@iloc0_mode string String.eqb String.leb String.eqb_eq
                (map source_x v)) as Hs.
  pose proof (dropna_empty_iff source_x has_source v has_source_iff) as Hse.
  unfold top_source. cbn [is_empty].
  destruct (dropna (map source_x v)) as [|s0 ss].
  { destruct Hse as [Hse _]. rewrite (Hse eq_refl), Hs. reflexivity. }
  destruct (existsb has_source v);
    [|destruct Hse as [_ Hse]; specialize (Hse eq_refl); discriminate].
  destruct Hs as [s [-> _]]. cbn [bind].
  (* the journal slot *)
  pose proof (@iloc0_mode string String.eqb String.leb String.eqb_eq
                (map (fun x => Some (journal x)) v)) as Hj.
  rewrite dropna_map_Some in Hj.
  unfold top_journal. cbn [is_empty].
  destruct (map journal v) as [|j0 js] eqn:Ej; [discriminate|].
  destruct Hj as [j [-> _]]. cbn [bind].
  eexists. reflexivity.
Qed.

Lemma filtered_df_cleaned (df : DataFrame) (w : widgets) :
  Forall cleaned df -> Forall cleaned (filtered_df df w).
Proof.
  intros H. rewrite filtered_df_mask. rewrite Forall_forall in *.
  intros r Hr. apply filter_In in Hr. now apply H.
Qed.

(** X12. Over a table as [load_data] builds it, the overview tab fails in
    exactly two situations: the file has no records, and line 143 raises
    ZeroDivisionError; or the view has rows but none of them is dated or
    none of them has a source, and the insight boxes raise IndexError.  On
    every other table and view, the empty view of a table with records
    included, all its figures are computed. *)
Theorem overview_fails_in_two_situations :
  forall (df : DataFrame) (w : widgets),
    Forall cleaned df ->
    match df with
    | [] => overview df (filtered_df df w) = Raise ZeroDivisionError
    | _ :: _ =>
        if is_empty (filtered_df df w) ||
           (existsb has_year (filtered_df df w) &&
            existsb has_source (filtered_df df w))
        then exists m, overview df (filtered_df df w) = Ok m
        else overview df (filtered_df df w) = Raise IndexError
    end.
Proof.
  intros [|r df] w Hc.
  - rewrite filtered_df_nil. reflexivity.
  - pose proof (summarize_fails_iff_undated_or_unsourced
                  (filtered_df_cleaned w Hc)) as H.
    unfold overview. cbn [full_text_card bind]. exact H.
Qed.

Lemma overview_fails_in_two_situations_ex :
  overview ex_df (filtered_df ex_df (mkWidgets [] ["Unknown Journal"%string] [] "")) =
  Raise IndexError.
Proof.
  apply (@overview_fails_in_two_situations ex_df
           (mkWidgets [] ["Unknown Journal"%string] [] "") ex_df_cleaned).
Defined.

(** ** Grouped counts *)

Lemma count_desc_total (A : Type) (p q : A * nat) :
  (snd q <=? snd p) = true \/ (snd p <=? snd q) = true.
Proof. rewrite !Nat.leb_le. lia. Qed.

Lemma count_desc_trans (A : Type) (p q r : A * nat) :
  (snd q <=? snd p) = true -> (snd r <=? snd q) = true ->
  (snd r <=? snd p) = true.
Proof. rewrite !Nat.leb_le. lia. Qed.

Section ValueCountsFacts.

Variable A : Type.
Variable eqb : A -> A -> bool.
Hypothesis eqb_eq : forall x y, eqb x y = true <-> x = y.

Lemma value_counts_perm (col : list (option A)) :
  Permutation (value_counts eqb col) (tally eqb (dropna col)).
Proof. unfold value_counts. apply sort_by_perm. Qed.

Lemma value_counts_desc (col : list (option A)) :
  StronglySorted (fun p q => snd q <= snd p) (value_counts eqb col).
Proof.
  unfold value_counts.
  eapply strongly_sorted_weaken;
    [|apply sort_by_sorted with (le := fun p q : A * nat => snd q <=? snd p)].
  - intros p q H. apply Nat.leb_le. exact H.
  - intros p q. apply count_desc_total.
  - intros p q r. apply count_desc_trans.
Qed.

Lemma value_counts_nodup (col : list (option A)) :
  NoDup (map fst (value_counts eqb col)).
Proof.
  apply (Permutation_NoDup
           (Permutation_sym (Permutation_map fst (value_counts_perm col)))).
  now apply tally_nodup.
Qed.

Lemma value_counts_entry (col : list (option A)) (k : A) (n : nat) :
  In (k, n) (value_counts eqb col) ->
  n = occurrences eqb k (dropna col) /\ 0 < n.
Proof.
  intros Hin. apply (Permutation_in _ (value_counts_perm col)) in Hin.
  exact (@tally_count A eqb eqb_eq _ _ _ Hin).
Qed.

Lemma value_counts_has (col : list (option A)) (k : A) :
  In k (dropna col) ->
  In (k, occurrences eqb k (dropna col)) (value_counts eqb col).
Proof.
  intros Hk. apply (Permutation_in _ (Permutation_sym (value_counts_perm col))).
  now apply tally_entry.
Qed.

Lemma value_counts_sum (col : list (option A)) :
  sum_nat (map snd (value_counts eqb col)) = List.length (dropna col).
Proof.
  rewrite (sum_nat_perm (Permutation_map snd (value_counts_perm col))).
  now apply tally_sum.
Qed.

Lemma strongly_sorted_app_inv (B : Type) (R : B -> B -> Prop) (l1 l2 : list B) :
  StronglySorted R (l1 ++ l2) ->
  forall a b, In a l1 -> In b l2 -> R a b.
Proof.
  induction l1 as [|x l1 IH]; simpl; intros Hs a b Ha Hb; [contradiction|].
  inversion Hs as [|? ? Hs' Hall]; subst. destruct Ha as [<- | Ha].
  - rewrite Forall_forall in Hall. apply Hall. apply in_or_app. now right.
  - now apply IH.
Qed.

(** The first [n] entries of [value_counts]: a value left out is outnumbered
    by (or level with) every value kept, and nothing is left out unless [n]
    entries are kept. *)
Lemma head_value_counts_top (n : nat) (col : list (option A)) (k : A) :
  In k (dropna col) ->
  ~ In k (map fst (head n (value_counts eqb col))) ->
  List.length (head n (value_counts eqb col)) = n /\
  Forall (fun p => occurrences eqb k (dropna col) <= snd p)
         (head n (value_counts eqb col)).
Proof.
  intros Hk Hout. unfold head in *.
  set (vc := value_counts eqb col) in *.
  pose proof (@value_counts_has col k Hk) as Hin. fold vc in Hin.
  rewrite <- (firstn_skipn n vc) in Hin. apply in_app_or in Hin.
  destruct Hin as [Hin | Hin].
  { exfalso. apply Hout. apply in_map_iff. now exists (k, occurrences eqb k (dropna col)). }
  split.
  - rewrite length_firstn.
    destruct (Nat.lt_ge_cases n (List.length vc)) as [Hlt | Hge]; [lia|].
    rewrite skipn_all2 in Hin by assumption. contradiction.
  - apply Forall_forall. intros p Hp.
    pose proof (value_counts_desc col) as Hs. fold vc in Hs.
    rewrite <- (firstn_skipn n vc) in Hs.
    exact (@strongly_sorted_app_inv _ _ _ _ Hs _ _ Hp Hin).
Qed.

Lemma head_value_counts_entries (n : nat) (col : list (option A)) :
  List.length (head n (value_counts eqb col)) <= n /\
  NoDup (map fst (head n (value_counts eqb col))) /\
  StronglySorted (fun p q => snd q <= snd p) (head n (value_counts eqb col)) /\
  Forall (fun p => snd p = occurrences eqb (fst p) (dropna col) /\ 0 < snd p)
         (head n (value_counts eqb col)).
Proof.
  unfold head. set (vc := value_counts eqb col).
  pose proof (value_counts_nodup col) as Hnd. fold vc in Hnd.
  pose proof (value_counts_desc col) as Hs. fold vc in Hs.
  rewrite <- (firstn_skipn n vc) in Hnd, Hs.
  split; [apply firstn_le_length|]. split; [|split].
  - rewrite map_app in Hnd. now apply NoDup_app_remove_r in Hnd.
  - clear - Hs. induction (firstn n vc) as [|x l IH]; [constructor|].
    simpl in Hs. inversion Hs as [|? ? Hs' Hall]; subst.
    constructor; [now apply IH|]. apply Forall_app in Hall. tauto.
  - apply Forall_forall. intros [k c] Hp. simpl.
    apply value_counts_entry. fold vc. rewrite <- (firstn_skipn n vc).
    apply in_or_app. now left.
Qed.

End ValueCountsFacts.

(** X13. The journal options of the sidebar (line 89): at most 20, all
    different, most frequent first, each with its exact number of papers;
    a journal missing from the options is outnumbered by (or level with)
    every option, and none is missing unless 20 are offered. *)
Theorem top_journals_are_most_frequent :
  forall df : DataFrame,
    List.length (top_journals df) <= 20 /\
    NoDup (map fst (top_journals df)) /\
    StronglySorted (fun p q => snd q <= snd p) (top_journals df) /\
    Forall (fun p => snd p = occurrences String.eqb (fst p) (map journal df) /\
                     0 < snd p)
           (top_journals df) /\
    (forall j, In j (map journal df) ->
               ~ In j (map fst (top_journals df)) ->
               List.length (top_journals df) = 20 /\
               Forall (fun p => occurrences String.eqb j (map journal df) <= snd p)
                      (top_journals df)).
Proof.
  intros df. unfold top_journals.
  pose proof (@head_value_counts_entries string String.eqb String.eqb_eq 20
                (map (fun r => Some (journal r)) df)) as H.
  pose proof (@head_value_counts_top string String.eqb String.eqb_eq 20
                (map (fun r => Some (journal r)) df)) as Htop.
  rewrite dropna_map_Some in H. destruct H as (H1 & H2 & H3 & H4).
  repeat split; try assumption.
  - apply (Htop j); [rewrite dropna_map_Some|]; assumption.
  - specialize (Htop j). rewrite dropna_map_Some in Htop.
    apply Htop; assumption.
Qed.

(** X14. The "Top 10 Journals" chart (line 253) has the same shape on the
    filtered view, with 10 bars at most. *)
Theorem top_journals_filtered_are_most_frequent :
  forall view : DataFrame,
    List.length (top_journals_filtered view) <= 10 /\
    NoDup (map fst (top_journals_filtered view)) /\
    StronglySorted (fun p q => snd q <= snd p) (top_journals_filtered view) /\
    Forall (fun p => snd p = occurrences String.eqb (fst p) (map journal view) /\
                     0 < snd p)
           (top_journals_filtered view) /\
    (forall j, In j (map journal view) ->
               ~ In j (map fst (top_journals_filtered view)) ->
               List.length (top_journals_filtered view) = 10 /\
               Forall (fun p => occurrences String.eqb j (map journal view) <= snd p)
                      (top_journals_filtered view)).
Proof.
  intros view. unfold top_journals_filtered.
  pose proof (@head_value_counts_entries string String.eqb String.eqb_eq 10
                (map (fun r => Some (journal r)) view)) as H.
  pose proof (@head_value_counts_top string String.eqb String.eqb_eq 10
                (map (fun r => Some (journal r)) view)) as Htop.
  rewrite dropna_map_Some in H. destruct H as (H1 & H2 & H3 & H4).
  repeat split; try assumption.
  - apply (Htop j); [rewrite dropna_map_Some|]; assumption.
  - specialize (Htop j). rewrite dropna_map_Some in Htop.
    apply Htop; assumption.
Qed.

Lemma dropna_length (A : Type) (f : row -> option A) (g : row -> bool)
    (view : DataFrame) :
  (forall r, g r = true <-> f r <> None) ->
  List.length (dropna (map f view)) = List.length (filter g view).
Proof.
  intros Hg. induction view as [|r view IH]; simpl; [reflexivity|].
  destruct (f r) as [a|] eqn:E.
  - assert (g r = true) as -> by (apply Hg; congruence). simpl. now rewrite IH.
  - assert (g r = false) as ->; [|exact IH].
    destruct (g r) eqn:G; [|reflexivity]. apply Hg in G. congruence.
Qed.

(** X15. The source pie (line 229): one slice per source that occurs, largest
    first, each as large as the number of rows of that source; rows without
    a source are in no slice, so the slices add up to the rows that have
    one. *)
Theorem source_counts_partition_sourced_rows :
  forall view : DataFrame,
    StronglySorted (fun p q => snd q <= snd p) (source_counts view) /\
    NoDup (map fst (source_counts view)) /\
    Forall (fun p => snd p = occurrences option_string_eqb (Some (fst p))
                                         (map source_x view) /\
                     0 < snd p)
           (source_counts view) /\
    (forall s, In (Some s) (map source_x view) ->
               In s (map fst (source_counts view))) /\
    sum_nat (map snd (source_counts view)) = List.length (filter has_source view).
Proof.
  intros view. unfold source_counts.
  assert (Hocc : forall s, occurrences String.eqb s (dropna (map source_x view)) =
                           occurrences option_string_eqb (Some s) (map source_x view)).
  { intros s. unfold occurrences. induction view as [|r v IH]; simpl; [reflexivity|].
    destruct (source_x r) as [x|]; simpl; [|exact IH].
    destruct (String.eqb s x); simpl; now rewrite IH. }
  assert (Hin : forall s, In (Some s) (map source_x view) ->
                          In s (dropna (map source_x view))).
  { clear. intros s. induction view as [|r v IH]; simpl; [tauto|].
    destruct (source_x r) as [x|]; simpl.
    - intros [H | H]; [left; congruence | right; auto].
    - intros [H | H]; [discriminate | auto]. }
  split; [apply value_counts_desc|].
  split; [apply value_counts_nodup; exact String.eqb_eq|].
  split; [|split].
  - apply Forall_forall. intros [s n] Hp. simpl. rewrite <- Hocc.
    exact (@value_counts_entry string String.eqb String.eqb_eq _ _ _ Hp).
  - intros s Hs. apply in_map_iff.
    exists (s, occurrences String.eqb s (dropna (map source_x view))).
    split; [reflexivity|].
    apply value_counts_has; [exact String.eqb_eq | now apply Hin].
  - rewrite value_counts_sum by exact String.eqb_eq.
    apply dropna_length. exact has_source_iff.
Qed.

(** ** The full-text pie *)

Lemma bool_eqb_eq (a b : bool) : Bool.eqb a b = true <-> a = b.
Proof. destruct a, b; simpl; split; congruence. Qed.

Lemma full_text_counts_shape (view : DataFrame) :
  let col := map has_full_text view in
  let t := occurrences Bool.eqb true col in
  let f := occurrences Bool.eqb false col in
  (0 < t -> f < t -> 0 < f -> full_text_counts view = [(true, t); (false, f)]) /\
  (0 < f -> t < f -> 0 < t -> full_text_counts view = [(false, f); (true, t)]) /\
  (0 < t -> f = 0 -> full_text_counts view = [(true, t)]) /\
  (0 < f -> t = 0 -> full_text_counts view = [(false, f)]) /\
  (t = 0 -> f = 0 -> full_text_counts view = []).
Proof.
  intros col t f. unfold full_text_counts.
  set (c := map (fun r => Some (has_full_text r)) view).
  assert (Hcol : dropna c = col) by apply dropna_map_Some.
  pose proof (value_counts_desc Bool.eqb c) as Hs.
  pose proof (@value_counts_nodup bool Bool.eqb bool_eqb_eq c) as Hnd.
  assert (Hent : forall k n, In (k, n) (value_counts Bool.eqb c) ->
                             n = occurrences Bool.eqb k col /\ 0 < n).
  { intros k n H. rewrite <- Hcol.
    exact (@value_counts_entry bool Bool.eqb bool_eqb_eq _ _ _ H). }
  assert (Hhas : forall k, 0 < occurrences Bool.eqb k col ->
                           In (k, occurrences Bool.eqb k col) (value_counts Bool.eqb c)).
  { intros k H. rewrite <- Hcol.
    apply (@value_counts_has bool Bool.eqb bool_eqb_eq).
    rewrite Hcol. now apply (@occurrences_pos_iff bool Bool.eqb bool_eqb_eq). }
  pose proof (Hhas true) as Ht. pose proof (Hhas false) as Hf.
  fold t in Ht. fold f in Hf.
  destruct (value_counts Bool.eqb c) as [|[b1 n1] [|[b2 n2] [|[b3 n3] rest]]].
  - repeat split; intros; try reflexivity;
      solve [ exfalso; apply Ht; assumption | exfalso; apply Hf; assumption ].
  - destruct (Hent b1 n1 (or_introl eq_refl)) as [E1 P1].
    destruct b1; fold t in E1; fold f in E1; subst n1;
      repeat split; intros; try reflexivity; try lia;
      solve [ destruct Ht as [Ht | []]; [assumption | congruence]
            | destruct Hf as [Hf | []]; [assumption | congruence] ].
  - destruct (Hent b1 n1 (or_introl eq_refl)) as [E1 P1].
    destruct (Hent b2 n2 (or_intror (or_introl eq_refl))) as [E2 P2].
    apply StronglySorted_inv in Hs. destruct Hs as [_ Hall].
    apply Forall_inv in Hall. simpl in Hall.
    apply NoDup_cons_iff in Hnd. destruct Hnd as [Hnotin _]. simpl in Hnotin.
    destruct b1, b2; try (exfalso; apply Hnotin; now left);
      fold t in E1, E2; fold f in E1, E2; subst n1 n2;
      repeat split; intros; try reflexivity; lia.
  - exfalso. apply NoDup_cons_iff in Hnd. destruct Hnd as [N1 Hnd].
    apply NoDup_cons_iff in Hnd. destruct Hnd as [N2 _]. simpl in N1, N2.
    destruct b1, b2, b3; intuition congruence.
Qed.

(** X16. The full-text pie (lines 280-286) pairs the fixed names 'Available',
    'Not Available' with the counts in [value_counts] order, largest first:
    when the papers without full text are the majority, the slice named
    'Available' carries their number; the names fit only when the papers
    with full text are the majority; and when all papers of the view are
    alike (or the view is empty) the two names meet fewer than two values
    and no pie is built. *)
Theorem fig_fulltext_names_follow_counts :
  forall view : DataFrame,
    let t := occurrences Bool.eqb true (map has_full_text view) in
    let f := occurrences Bool.eqb false (map has_full_text view) in
    (0 < t -> t < f ->
     fig_fulltext view = Some [("Available"%string, f); ("Not Available"%string, t)]) /\
    (0 < f -> f < t ->
     fig_fulltext view = Some [("Available"%string, t); ("Not Available"%string, f)]) /\
    (t = 0 \/ f = 0 -> fig_fulltext view = None).
Proof.
  intros view t f.
  destruct (full_text_counts_shape view) as (H1 & H2 & H3 & H4 & H5).
  fold t in H1, H2, H3, H4, H5. fold f in H1, H2, H3, H4, H5.
  unfold fig_fulltext. split; [|split].
  - intros Ht Hlt. rewrite H2 by lia. reflexivity.
  - intros Hf Hlt. rewrite H1 by lia. reflexivity.
  - intros Hz.
    destruct (Nat.eq_dec t 0) as [Ht0 | Ht0], (Nat.eq_dec f 0) as [Hf0 | Hf0];
      [ rewrite H5 by assumption
      | rewrite H4 by lia
      | rewrite H3 by lia
      | lia ]; reflexivity.
Qed.

(** ** The yearly and monthly series *)

Lemma yearly_counts_keys_sorted (view : DataFrame) :
  StronglySorted Z.lt (map fst (yearly_counts view)).
Proof.
  apply sorted_nodup_strict.
  - apply strongly_sorted_map with (R := Z.le).
    unfold yearly_counts, sort_index.
    eapply strongly_sorted_weaken;
      [| apply sort_by_sorted with (le := fun p q : Z * nat => (fst p <=? fst q)%Z)].
    + intros p q H. apply Z.leb_le. exact H.
    + intros p q. apply Zleb_total.
    + intros p q r. apply Zleb_trans.
  - apply (Permutation_NoDup
             (Permutation_sym (Permutation_map fst (yearly_counts_perm view)))).
    apply tally_nodup. exact Z.eqb_eq.
Qed.

Lemma yearly_counts_keys (view : DataFrame) (y : Z) :
  In y (map fst (yearly_counts view)) <->
  exists r, In r view /\ publish_year r = Some y.
Proof.
  assert (H : In y (map fst (yearly_counts view)) <->
              In y (map fst (tally Z.eqb (dropna (map publish_year view))))).
  { split; apply Permutation_in; apply Permutation_map;
      [|apply Permutation_sym]; apply yearly_counts_perm. }
  rewrite H, (@tally_keys Z Z.eqb Z.eqb_eq). clear H.
  induction view as [|r view IH]; simpl.
  - split; [contradiction | intros [r [[] _]]].
  - destruct (publish_year r) as [z|] eqn:E; simpl; rewrite IH; split.
    + intros [-> | [r' [Hin Hy]]]; [exists r; auto | exists r'; auto].
    + intros [r' [[<- | Hin] Hy]]; [left; congruence | right; eauto].
    + intros [r' [Hin Hy]]. exists r'; auto.
    + intros [r' [[<- | Hin] Hy]]; [congruence | eauto].
Qed.

Lemma strictly_sorted_same_members (l1 : list Z) :
  forall l2,
    StronglySorted Z.lt l1 -> StronglySorted Z.lt l2 ->
    (forall x, In x l1 <-> In x l2) -> l1 = l2.
Proof.
  induction l1 as [|a l1 IH]; intros l2 H1 H2 Hmem.
  - destruct l2 as [|b l2]; [reflexivity|].
    exfalso. apply (Hmem b). now left.
  - destruct l2 as [|b l2]; [exfalso; apply (Hmem a); now left|].
    apply StronglySorted_inv in H1. destruct H1 as [H1 Ha].
    apply StronglySorted_inv in H2. destruct H2 as [H2 Hb].
    rewrite Forall_forall in Ha, Hb.
    assert (a = b).
    { destruct (proj1 (Hmem a) (or_introl eq_refl)) as [E | Hin]; [auto|].
      destruct (proj2 (Hmem b) (or_introl eq_refl)) as [E | Hin']; [auto|].
      specialize (Ha _ Hin'). specialize (Hb _ Hin). lia. }
    subst b. f_equal. apply IH; try assumption.
    intros x. split; intros Hx.
    + destruct (proj1 (Hmem x) (or_intror Hx)) as [E | H]; [|assumption].
      subst x. specialize (Ha _ Hx). lia.
    + destruct (proj2 (Hmem x) (or_intror Hx)) as [E | H]; [|assumption].
      subst x. specialize (Hb _ Hx). lia.
Qed.

(** X17. On the unfiltered table the bars of the yearly chart (line 197) are,
    in order, exactly the year options of the sidebar (line 81). *)
Theorem yearly_bars_are_year_options :
  forall df : DataFrame,
    map fst (yearly_counts df) = available_years df.
Proof.
  intros df. apply strictly_sorted_same_members.
  - apply yearly_counts_keys_sorted.
  - unfold available_years, sorted_Z.
    set (l := unique Z.eqb (dropna (map publish_year df))).
    apply sorted_nodup_strict.
    + eapply strongly_sorted_weaken;
        [|exact (sort_by_sorted Z.leb Zleb_total Zleb_trans l)].
      intros a b H. apply Z.leb_le. exact H.
    + apply (Permutation_NoDup (Permutation_sym (sort_by_perm Z.leb l))).
      apply unique_NoDup. exact Z.eqb_eq.
  - intros y. rewrite yearly_counts_keys, available_years_In. reflexivity.
Qed.

(** X18. With a non-empty year selection, the yearly chart of the filtered view
    has bars for selected years only. *)
Theorem yearly_bars_within_selection :
  forall (df : DataFrame) (w : widgets),
    selected_years w <> [] ->
    Forall (fun p => In (fst p) (selected_years w))
           (yearly_counts (filtered_df df w)).
Proof.
  intros df w Hne. apply Forall_forall. intros [y n] Hp. simpl.
  assert (Hy : In y (map fst (yearly_counts (filtered_df df w))))
    by (apply in_map_iff; now exists (y, n)).
  apply yearly_counts_keys in Hy. destruct Hy as [r [Hr Hyr]].
  rewrite filtered_df_mask in Hr. apply filter_In in Hr.
  destruct Hr as [_ Hk]. apply spec_keep_reflects in Hk.
  destruct Hk as [[Hy | [y' [Hy' Hin]]] _]; [contradiction|].
  congruence.
Qed.

Lemma yearly_bars_within_selection_ex :
  Forall (fun p => In (fst p) [2020%Z])
         (yearly_counts (filtered_df ex_df (mkWidgets [2020%Z] [] [] ""))).
Proof.
  apply (yearly_bars_within_selection ex_df (mkWidgets [2020%Z] [] [] "")).
  simpl. discriminate.
Defined.

Section PartialSums.

Variable A : Type.
Variable eqb : A -> A -> bool.
Hypothesis eqb_eq : forall x y, eqb x y = true <-> x = y.
Variable P : A -> bool.

Lemma sum_selected_bump (k : A) (acc : list (A * nat)) :
  sum_nat (map snd (filter (fun p => P (fst p)) (bump eqb k acc))) =
  (if P k then 1 else 0) + sum_nat (map snd (filter (fun p => P (fst p)) acc)).
Proof.
  induction acc as [|[k' n] t IH]; simpl.
  - destruct (P k); reflexivity.
  - destruct (eqb k k') eqn:E; simpl.
    + apply eqb_eq in E. subst k'. destruct (P k); simpl; lia.
    + destruct (P k'); simpl; rewrite IH; lia.
Qed.

Lemma sum_selected_tally (l : list A) :
  sum_nat (map snd (filter (fun p => P (fst p)) (tally eqb l))) =
  List.length (filter P l).
Proof.
  unfold tally.
  assert (H : forall acc,
             sum_nat (map snd (filter (fun p => P (fst p))
                                (fold_left (fun a k => bump eqb k a) l acc))) =
             List.length (filter P l) +
             sum_nat (map snd (filter (fun p => P (fst p)) acc))).
  { induction l as [|k l IH]; intros acc; simpl; [reflexivity|].
    rewrite IH, sum_selected_bump. destruct (P k); simpl; lia. }
  rewrite H. simpl. lia.
Qed.

Lemma sum_selected_perm (l l' : list (A * nat)) :
  Permutation l l' ->
  sum_nat (map snd (filter (fun p => P (fst p)) l)) =
  sum_nat (map snd (filter (fun p => P (fst p)) l')).
Proof.
  induction 1 as [|x l l' _ IH|x y l|l l' l'' _ IH1 _ IH2]; simpl.
  - reflexivity.
  - destruct (P (fst x)); simpl; now rewrite IH.
  - destruct (P (fst x)), (P (fst y)); simpl; lia.
  - now rewrite IH1.
Qed.

End PartialSums.

Lemma pair_eqb_eq (a b : Z * Z) : pair_eqb a b = true <-> a = b.
Proof.
  destruct a as [a1 a2], b as [b1 b2]. unfold pair_eqb. simpl.
  rewrite andb_true_iff, !Z.eqb_eq. split; [intros [-> ->]; reflexivity|].
  intros H. injection H as -> ->. auto.
Qed.

Lemma pair_leb_iff (a b : Z * Z) :
  pair_leb a b = true <->
  (fst a < fst b \/ (fst a = fst b /\ snd a <= snd b))%Z.
Proof.
  unfold pair_leb.
  destruct (Z.ltb_spec (fst a) (fst b)); [split; [lia | reflexivity]|].
  destruct (Z.ltb_spec (fst b) (fst a)); [split; [discriminate | lia]|].
  rewrite Z.leb_le. lia.
Qed.

Lemma month_sorted_nodup_strict (l : list ((Z * Z) * nat)) :
  StronglySorted (fun p q => pair_leb (fst p) (fst q) = true) l ->
  NoDup (map fst l) ->
  StronglySorted
    (fun p q => (fst (fst p) < fst (fst q) \/
                 (fst (fst p) = fst (fst q) /\ snd (fst p) < snd (fst q)))%Z) l.
Proof.
  induction 1 as [|p l Hs IH Hall]; intros Hnd; [constructor|].
  simpl in Hnd. apply NoDup_cons_iff in Hnd. destruct Hnd as [Hnotin Hnd].
  constructor; [now apply IH|].
  rewrite Forall_forall in *. intros q Hq. specialize (Hall q Hq).
  apply pair_leb_iff in Hall.
  assert (Hne : fst p <> fst q)
    by (intros E; apply Hnotin; rewrite E; now apply in_map).
  destruct (fst p) as [y m], (fst q) as [y' m']. simpl in *.
  assert (m <> m' \/ y <> y')
    by (destruct (Z.eq_dec m m'); [right|left]; congruence).
  lia.
Qed.

Lemma monthly_data_perm (view : DataFrame) :
  Permutation (monthly_data view)
              (tally pair_eqb (dropna (map year_month view))).
Proof. unfold monthly_data, sort_index. apply sort_by_perm. Qed.

(** X19. The monthly series (line 212): one point per (year, month) that occurs
    in the view, in strictly chronological order, each counting the rows of
    that month; the points add up to the rows that have a year and a
    month. *)
Theorem monthly_data_sorted_and_complete :
  forall view : DataFrame,
    StronglySorted
      (fun p q => (fst (fst p) < fst (fst q) \/
                   (fst (fst p) = fst (fst q) /\ snd (fst p) < snd (fst q)))%Z)
      (monthly_data view) /\
    Forall (fun p => snd p = occurrences pair_eqb (fst p) (dropna (map year_month view)) /\
                     0 < snd p)
           (monthly_data view) /\
    sum_nat (map snd (monthly_data view)) =
      List.length (dropna (map year_month view)).
Proof.
  intros view. pose proof (monthly_data_perm view) as Hperm.
  split; [|split].
  - assert (Hnd : NoDup (map fst (monthly_data view))).
    { apply (Permutation_NoDup (Permutation_sym (Permutation_map fst Hperm))).
      apply tally_nodup. exact pair_eqb_eq. }
    assert (Hs : StronglySorted
                   (fun p q : (Z * Z) * nat => pair_leb (fst p) (fst q) = true)
                   (monthly_data view)).
    { unfold monthly_data, sort_index.
      apply sort_by_sorted with (le := fun p q : (Z * Z) * nat => pair_leb (fst p) (fst q)).
      - intros p q. cbv beta. rewrite !pair_leb_iff. lia.
      - intros p q r. cbv beta. rewrite !pair_leb_iff. lia. }
    now apply month_sorted_nodup_strict.
  - apply (Permutation_Forall (Permutation_sym Hperm)).
    apply Forall_forall. intros [k n] Hin. simpl.
    exact (@tally_count (Z * Z) pair_eqb pair_eqb_eq _ _ _ Hin).
  - rewrite (sum_nat_perm (Permutation_map snd Hperm)).
    apply tally_sum. exact pair_eqb_eq.
Qed.

Lemma cleaned_months_of_year (view : DataFrame) (y : Z) :
  Forall cleaned view ->
  List.length (filter (fun k : Z * Z => Z.eqb (fst k) y)
                      (dropna (map year_month view))) =
  List.length (filter (year_is y) view).
Proof.
  induction 1 as [|r view Hr _ IH]; [reflexivity|].
  destruct Hr as (Hy & Hm & _).
  assert (Hym : year_month r =
                option_map (fun d => (d_year d, d_month d)) (publish_time r))
    by (unfold year_month; rewrite Hy, Hm; now destruct (publish_time r)).
  assert (Hyi : year_is y r =
                match publish_time r with
                | Some d => Z.eqb (d_year d) y
                | None => false
                end)
    by (unfold year_is; rewrite Hy; now destruct (publish_time r)).
  cbn [map dropna filter]. rewrite Hym, Hyi.
  destruct (publish_time r) as [d|]; cbn [option_map dropna filter fst];
    [|exact IH].
  destruct (Z.eqb (d_year d) y); cbn [List.length]; now rewrite IH.
Qed.

Lemma years_of_year (view : DataFrame) (y : Z) :
  List.length (filter (fun k : Z => Z.eqb k y) (dropna (map publish_year view))) =
  List.length (filter (year_is y) view).
Proof.
  induction view as [|r view IH]; [reflexivity|].
  cbn [map dropna filter]. unfold year_is at 1.
  destruct (publish_year r) as [z|]; cbn [dropna filter]; [|exact IH].
  destruct (Z.eqb z y); cbn [List.length]; now rewrite IH.
Qed.

(** X20. Over rows as [load_data] builds them, the monthly points of a year add
    up to the rows of that year, that is, to the year's bar in the yearly
    chart. *)
Theorem monthly_points_add_up_to_year :
  forall (view : DataFrame) (y : Z),
    Forall cleaned view ->
    sum_nat (map snd (filter (fun p => Z.eqb (fst (fst p)) y) (monthly_data view))) =
      List.length (filter (year_is y) view) /\
    sum_nat (map snd (filter (fun p => Z.eqb (fst p) y) (yearly_counts view))) =
      List.length (filter (year_is y) view).
Proof.
  intros view y Hc. split.
  - etransitivity;
      [exact (@sum_selected_perm (Z * Z) (fun k : Z * Z => Z.eqb (fst k) y)
                _ _ (monthly_data_perm view))|].
    etransitivity;
      [exact (@sum_selected_tally (Z * Z) pair_eqb pair_eqb_eq
                (fun k : Z * Z => Z.eqb (fst k) y) _)|].
    now apply cleaned_months_of_year.
  - etransitivity;
      [exact (@sum_selected_perm Z (fun k : Z => Z.eqb k y)
                _ _ (yearly_counts_perm view))|].
    etransitivity;
      [exact (@sum_selected_tally Z Z.eqb Z.eqb_eq (fun k : Z => Z.eqb k y) _)|].
    apply years_of_year.
Qed.

Lemma monthly_points_add_up_to_year_ex :
  sum_nat (map snd (filter (fun p => Z.eqb (fst (fst p)) 2020) (monthly_data ex_df))) =
    List.length (filter (year_is 2020) ex_df) /\
  sum_nat (map snd (filter (fun p => Z.eqb (fst p) 2020) (yearly_counts ex_df))) =
    List.length (filter (year_is 2020) ex_df).
Proof. apply (monthly_points_add_up_to_year 2020 ex_df_cleaned). Defined.

(** ** Search: the case of the term, and the placeholder abstract *)









(** ** The paper panels *)

Lemma slice_to_length (n : nat) :
  forall s, String.length (slice_to n s) = Nat.min n (String.length s).
Proof.
  unfold slice_to. induction n as [|n IH]; intros [|c s]; simpl; try reflexivity.
  now rewrite IH.
Qed.

Lemma slice_to_short (n : nat) :
  forall s, String.length s <= n -> slice_to n s = s.
Proof.
  unfold slice_to. induction n as [|n IH]; intros [|c s] H; simpl in *;
    try reflexivity; [lia|]. f_equal. apply IH. lia.
Qed.

Lemma string_length_app (a b : string) :
  String.length (a ++ b) = String.length a + String.length b.
Proof. induction a as [|c a IH]; simpl; [reflexivity | now rewrite IH]. Qed.

Lemma slice_to_split (n : nat) :
  forall s, exists cut, s = (slice_to n s ++ cut)%string.
Proof.
  unfold slice_to. induction n as [|n IH]; intros [|c s]; simpl.
  - now exists EmptyString.
  - now exists (String c s).
  - now exists EmptyString.
  - destruct (IH s) as [cut Hcut]. exists cut. now rewrite <- Hcut.
Qed.

(** X23. A panel (lines 306-315) shows the first 100 characters of the
    title (all of it when it has no more) followed by three dots, and the
    first 500 characters of the abstract (all of it when it has no more)
    followed by three dots. *)
Theorem render_paper_shows_prefixes :
  forall (paper : row) (p : panel),
    render_paper paper = Some p ->
    exists (t shown_t cut_t shown_a cut_a : string),
      title paper = Some t /\
      t = (shown_t ++ cut_t)%string /\
      String.length shown_t = Nat.min 100 (String.length t) /\
      p_label p = (shown_t ++ "...")%string /\
      abstract paper = (shown_a ++ cut_a)%string /\
      String.length shown_a = Nat.min 500 (String.length (abstract paper)) /\
      p_abstract p = (shown_a ++ "...")%string.
Proof.
  intros paper p H. unfold render_paper in H.
  destruct (title paper) as [t|] eqn:Et; [|discriminate].
  injection H as <-. cbn [p_label p_abstract].
  destruct (slice_to_split 100 t) as [cut_t Ht].
  destruct (slice_to_split 500 (abstract paper)) as [cut_a Ha].
  exists t, (slice_to 100 t), cut_t, (slice_to 500 (abstract paper)), cut_a.
  repeat split; try assumption; apply slice_to_length.
Qed.

Lemma render_paper_shows_prefixes_ex :
  100 < String.length long_text /\
  exists p,
    render_paper row_G = Some p /\
    exists (t shown_t cut_t shown_a cut_a : string),
      title row_G = Some t /\
      t = (shown_t ++ cut_t)%string /\
      String.length shown_t = Nat.min 100 (String.length t) /\
      p_label p = (shown_t ++ "...")%string /\
      abstract row_G = (shown_a ++ cut_a)%string /\
      String.length shown_a = Nat.min 500 (String.length (abstract row_G)) /\
      p_abstract p = (shown_a ++ "...")%string.
Proof.
  split; [vm_compute; lia|].
  eexists. split; [reflexivity|].
  apply (@render_paper_shows_prefixes row_G). reflexivity.
Defined.

(** X24. The DOI line of a panel (lines 314-315) gives back the DOI cell of the
    file: it is written with the cell's text when the cell was filled and
    left out when the cell was empty.  (A cell that itself reads
    'No DOI available' is excluded: it cannot be told from an empty one.) *)
Theorem panel_doi_is_file_doi :
  forall (to_datetime : string -> option date) (r : raw_row),
    raw_title r <> None ->
    raw_doi r <> Some "No DOI available"%string ->
    exists p, render_paper (clean_row to_datetime r) = Some p /\
              p_doi p = raw_doi r.
Proof.
  intros to_datetime r Ht Hd. unfold render_paper, clean_row. simpl.
  destruct (raw_title r) as [t|]; [|congruence].
  eexists. split; [reflexivity|]. simpl.
  destruct (raw_doi r) as [d|]; simpl; [|reflexivity].
  destruct (String.eqb_spec d "No DOI available"); [congruence | reflexivity].
Qed.

Lemma panel_doi_is_file_doi_ex :
  exists p, render_paper (clean_row ex_to_datetime raw_B) = Some p /\
            p_doi p = raw_doi raw_B.
Proof.
  apply (@panel_doi_is_file_doi ex_to_datetime raw_B); simpl; discriminate.
Defined.

Lemma render_papers_none_iff (rows : DataFrame) :
  render_papers rows = None <-> exists r, In r rows /\ title r = None.
Proof.
  induction rows as [|r rows IH]; simpl.
  - split; [discriminate | intros [r [[] _]]].
  - unfold render_paper at 1. destruct (title r) as [t|] eqn:Et.
    + destruct (render_papers rows) as [ps|].
      * split; [discriminate|]. intros [r' [[<- | Hin] Hn]]; [congruence|].
        destruct IH as [_ IH]. discriminate IH. eauto.
      * split; [|reflexivity]. intros _. destruct IH as [IH _].
        destruct (IH eq_refl) as [r' [Hin Hn]]. eauto.
    + split; [|reflexivity]. intros _. exists r. auto.
Qed.

(** X25. The listing loops (lines 305-331) fail, with the TypeError of slicing a
    missing title, exactly when one of the listed papers has no title;
    otherwise there is one panel per listed paper. *)
Theorem render_papers_fails_iff_missing_title :
  forall rows : DataFrame,
    (render_papers rows = None <-> exists r, In r rows /\ title r = None) /\
    (forall ps, render_papers rows = Some ps ->
                List.length ps = List.length rows).
Proof.
  intros rows. split; [apply render_papers_none_iff|].
  induction rows as [|r rows IH]; simpl; intros ps H.
  - injection H as <-. reflexivity.
  - destruct (render_paper r); [|discriminate].
    destruct (render_papers rows) as [ps'|]; [|discriminate].
    injection H as <-. simpl. f_equal. now apply IH.
Qed.

(** X26. On a view of at most five papers the sample (line 319) takes them all,
    so one paper without a title is enough for the sample listing to fail,
    whatever the random draws. *)
Theorem small_view_sample_fails_on_missing_title :
  forall (view : DataFrame) (rng : list nat) (r : row),
    List.length view <= 5 ->
    In r view ->
    title r = None ->
    exists rows, sample_papers view rng = Ok rows /\ render_papers rows = None.
Proof.
  intros view rng r Hlen Hin Ht.
  unfold sample_papers, sample_rows, DataFrame_sample.
  rewrite Nat.min_r by assumption. rewrite Nat.ltb_irrefl.
  eexists. split; [reflexivity|]. apply render_papers_none_iff.
  exists r. split; [|assumption].
  destruct (draw_without_replacement (List.length view) view rng) as [rest Hperm].
  pose proof (draw_length view rng (Nat.le_refl (List.length view))) as Hl.
  pose proof (Permutation_length Hperm) as Hpl. rewrite length_app, Hl in Hpl.
  destruct rest as [|x rest]; [|simpl in Hpl; lia].
  rewrite app_nil_r in Hperm.
  exact (Permutation_in _ (Permutation_sym Hperm) Hin).
Qed.

Lemma small_view_sample_fails_on_missing_title_ex :
  exists rows, sample_papers ex_small_view [7; 3] = Ok rows /\
               render_papers rows = None.
Proof.
  apply (@small_view_sample_fails_on_missing_title ex_small_view [7; 3]
           (clean_row ex_to_datetime raw_E)).
  - simpl. lia.
  - simpl. right. left. reflexivity.
  - reflexivity.
Defined.

(** ** How the pieces fit *)

Lemma filter_idempotent (A : Type) (f : A -> bool) (l : list A) :
  filter f (filter f l) = filter f l.
Proof.
  induction l as [|x l IH]; simpl; [reflexivity|].
  destruct (f x) eqn:E; simpl; [rewrite E, IH|]; auto.
Qed.

(** X27. Filtering an already filtered view with the same selections changes
    nothing. *)
Theorem filtered_df_idempotent :
  forall (df : DataFrame) (w : widgets),
    filtered_df (filtered_df df w) w = filtered_df df w.
Proof.
  intros df w. rewrite !filtered_df_mask. apply filter_idempotent.
Qed.

Lemma nodup_same_members_length (A : Type) (l1 l2 : list A) :
  NoDup l1 -> NoDup l2 -> (forall x, In x l1 <-> In x l2) ->
  List.length l1 = List.length l2.
Proof.
  intros H1 H2 H. apply Permutation_length. now apply NoDup_Permutation.
Qed.

(** X28. The "Top 10 Journals" chart (line 253) has as many bars as the "Unique
    Journals" card (line 132) counts journals, up to ten. *)
Theorem top_journal_bars_match_unique_count :
  forall view : DataFrame,
    List.length (top_journals_filtered view) =
    Nat.min 10 (List.length (unique String.eqb (map journal view))).
Proof.
  intros view. unfold top_journals_filtered, head. rewrite length_firstn.
  f_equal. set (c := map (fun r => Some (journal r)) view).
  rewrite <- (length_map fst (value_counts String.eqb c)).
  apply nodup_same_members_length.
  - apply value_counts_nodup. exact String.eqb_eq.
  - apply unique_NoDup. exact String.eqb_eq.
  - intros j. rewrite (unique_In _ _ _ String.eqb_eq).
    assert (H : In j (map fst (value_counts String.eqb c)) <->
                In j (map fst (tally String.eqb (dropna c)))).
    { split; apply Permutation_in; apply Permutation_map;
        [|apply Permutation_sym]; apply value_counts_perm. }
    rewrite H, (@tally_keys string String.eqb String.eqb_eq).
    unfold c. rewrite dropna_map_Some. reflexivity.
Qed.

(** ** Two runs of main *)

Example main_on_file_without_records :
  main ex_to_datetime (Some []) (default_widgets []) [] =
    [EvHeader;
     EvLoad (EvReadCsv "cord19_metadata.csv");
     EvSidebar [];
     EvException ZeroDivisionError].
Proof. reflexivity. Qed.

Example main_on_loaded_file :
  exists m,
    main ex_to_datetime (Some ex_raw) (default_widgets ex_df) [] =
      [EvHeader;
       EvLoad (EvReadCsv "cord19_metadata.csv");
       EvSidebar [2020%Z; 2021%Z];
       EvOverview m;
       EvTrends [(2020%Z, 2); (2021%Z, 1)];
       EvTrendsRaises].
Proof. eexists. reflexivity. Qed.
